(** * ship.isis.datunits.isisunit: AIsisUnit, CommentUnit and HeaderUnit

    A shallow embedding of [src/ship/isis/datunits/isisunit.py].

    Python objects are records, attributes that a constructor may leave
    unassigned are [option] fields and dictionaries are [gmap]s.  A method
    that assigns to [self] is a function from the object to the object
    after the call, paired with the value returned or the exception raised;
    a method that only reads returns the latter alone.  Strings are
    sequences of code points below 256; integers are [Z]. *)

From Stdlib Require Import ZArith String Ascii DecimalString DecimalPos Lia.
From stdpp Require Import base option list strings gmap.

Open Scope Z_scope.

(** ** The fragment of Python the module relies on *)

Module Py.

(** Exception classes raised by the module or by the built-ins it calls. *)
Inductive exn : Set :=
| ValueError
| IndexError
| KeyError
| NameError
| TypeError
| AttributeError
| NotImplementedError.

Inductive result (A : Type) : Type :=
| Ok (a : A)
| Raise (e : exn).
Arguments Ok {A} a.
Arguments Raise {A} e.

#[global] Instance result_ret : MRet result := fun A a => Ok a.
#[global] Instance result_bind : MBind result := fun A B f r =>
  match r with
  | Ok a => f a
  | Raise e => Raise e
  end.

Definition raises {A} (r : result A) (e : exn) : Prop := r = Raise e.

(** The interpreter line: the source carries [from __future__ import
    unicode_literals] for Python 2 and [.encode()] calls for Python 3. *)
Inductive version : Set := Py2 | Py3.

(** [l[i]] on a list, with negative indices counted from the end. *)
Definition getitem {A} (l : list A) (i : Z) : result A :=
  let n := Z.of_nat (length l) in
  let j := if i <? 0 then i + n else i in
  if (0 <=? j) && (j <? n)
  then match l !! Z.to_nat j with
       | Some x => Ok x
       | None => Raise IndexError
       end
  else Raise IndexError.

(** A slice bound: absent bounds default to the ends, negative bounds
    count from the end, and everything is clamped to the sequence. *)
Definition bound (n : Z) (dflt : Z) (b : option Z) : Z :=
  match b with
  | None => dflt
  | Some i => if i <? 0 then Z.max 0 (i + n) else Z.min i n
  end.

(** [l[lo:hi]] on a list. *)
Definition slice {A} (lo hi : option Z) (l : list A) : list A :=
  let n := Z.of_nat (length l) in
  let a := bound n 0 lo in
  let b := bound n n hi in
  take (Z.to_nat (b - a)) (drop (Z.to_nat a) l).

(** [range(a, b)] has [max 0 (b - a)] elements. *)
Definition range_len (a b : Z) : nat := Z.to_nat (b - a).

(** *** str *)

Definition chars (s : string) : list ascii := list_ascii_of_string s.
Definition str_of (l : list ascii) : string := string_of_list_ascii l.

Definition len (s : string) : Z := Z.of_nat (String.length s).

(** [s[lo:hi]] *)
Definition substr (lo hi : option Z) (s : string) : string :=
  str_of (slice lo hi (chars s)).

(** [str.isspace] for one code point below 256: tab, line feed, vertical
    tab, form feed, carriage return, the four information separators,
    space, next line and no-break space. *)
Definition isspace (c : ascii) : bool :=
  let n := nat_of_ascii c in
  ((9 <=? n)%nat && (n <=? 13)%nat)
  || ((28 <=? n)%nat && (n <=? 32)%nat)
  || (n =? 133)%nat || (n =? 160)%nat.

Fixpoint lstrip (s : string) : string :=
  match s with
  | EmptyString => EmptyString
  | String c s' => if isspace c then lstrip s' else s
  end.

Fixpoint rstrip (s : string) : string :=
  match s with
  | EmptyString => EmptyString
  | String c s' =>
      match rstrip s' with
      | EmptyString => if isspace c then EmptyString else String c EmptyString
      | r => String c r
      end
  end.

(** [s.strip()] *)
Definition strip (s : string) : string := rstrip (lstrip s).

(** [s.split(sep)] for a one-character separator. *)
Fixpoint split (sep : ascii) (s : string) : list string :=
  match s with
  | EmptyString => [EmptyString]
  | String c s' =>
      if Ascii.eqb c sep then EmptyString :: split sep s'
      else match split sep s' with
           | h :: t => String c h :: t
           | [] => [String c EmptyString]
           end
  end.

Definition newline : ascii := ascii_of_nat 10.

(** [str(n)] for an integer. *)
Definition str (n : Z) : string := NilZero.string_of_int (Z.to_int n).

Definition isdigit (c : ascii) : bool :=
  let n := nat_of_ascii c in (48 <=? n)%nat && (n <=? 57)%nat.

Definition digit_val (c : ascii) : Z := Z.of_nat (nat_of_ascii c) - 48.

(** The digit part of an integer literal: decimal digits, with single
    underscores allowed between two digits. *)
Fixpoint digits (s : string) (acc : Z) (after_digit : bool) : option Z :=
  match s with
  | EmptyString => if after_digit then Some acc else None
  | String c s' =>
      if isdigit c then digits s' (10 * acc + digit_val c) true
      else if Ascii.eqb c "_" && after_digit
           then match s' with
                | String c' _ => if isdigit c' then digits s' acc false else None
                | EmptyString => None
                end
           else None
  end.

(** [int(s)] for a string: surrounding whitespace is ignored, then an
    optional sign and the digits; anything else is a [ValueError]. *)
Definition int (s : string) : result Z :=
  let body := strip s in
  let parsed :=
    match body with
    | String "-" r => Z.opp <$> digits r 0 false
    | String "+" r => digits r 0 false
    | _ => digits body 0 false
    end in
  match parsed with
  | Some n => Ok n
  | None => Raise ValueError
  end.

Fixpoint spaces (n : nat) : string :=
  match n with
  | O => EmptyString
  | S n' => String " " (spaces n')
  end.

(** ['{:<w}'.format(s)] *)
Definition format_left (w : nat) (s : string) : string :=
  s +:+ spaces (w - String.length s).

(** ['{:>w}'.format(s)] *)
Definition format_right (w : nat) (s : string) : string :=
  spaces (w - String.length s) +:+ s.

(** The names bound at module level when a method body runs: the imports,
    the logger and the four classes. *)
Definition module_globals : list string :=
  ["hashlib"; "uuid"; "random"; "copy"; "rdt"; "dt"; "HeadDataItem";
   "logging"; "logger"; "AIsisUnit"; "UnknownUnit"; "CommentUnit";
   "HeaderUnit"]%string.

(** Names of the built-in namespace that the module mentions. *)
Definition builtins : list string :=
  ["object"; "str"; "int"; "len"; "range"; "None"; "True"; "False";
   "ValueError"; "IndexError"; "KeyError"; "NotImplementedError"]%string.

(** Evaluating a free name of a method body: the module namespace, then
    the built-ins, otherwise [NameError].  On success the name itself
    stands for the object it is bound to. *)
Definition load_global (name : string) : result string :=
  if bool_decide (name ∈ module_globals) || bool_decide (name ∈ builtins)
  then Ok name
  else Raise NameError.

(** [index >= n] where [index] may be [None].  Python 2 orders [None]
    below every number; Python 3 refuses the comparison. *)
Definition ge (py : version) (index : option Z) (n : Z) : result bool :=
  match index with
  | Some i => Ok (n <=? i)
  | None => match py with
            | Py2 => Ok false
            | Py3 => Raise TypeError
            end
  end.

(** Truth value of an optional number: [None] and zero are false. *)
Definition truthy (v : option Z) : bool :=
  match v with
  | None => false
  | Some x => negb (x =? 0)
  end.

End Py.

Import Py.

(** Methods that update [self]: the object after the call, and the outcome. *)
Definition meth (S A : Type) : Type := S → S * result A.

#[global] Instance meth_ret {S} : MRet (meth S) := fun A a s => (s, Ok a).
#[global] Instance meth_bind {S} : MBind (meth S) := fun A B f m s =>
  match m s with
  | (s', Ok a) => f a s'
  | (s', Raise e) => (s', Raise e)
  end.

(** An expression evaluated inside a method body. *)
Definition eval {S A} (r : result A) : meth S A := fun s => (s, r).
(** Reading [self]. *)
Definition self_ {S} : meth S S := fun s => (s, Ok s).
(** An assignment to an attribute of [self]. *)
Definition assign {S} (f : S → S) : meth S () := fun s => (f s, Ok ()).

(** A call on an object held by [self], which may change it and raise. *)
Definition call {S A} (f : S → S * result A) : meth S A := f.

(** [o.attr] for an attribute that may never have been assigned. *)
Definition getattr {A} (o : option A) : result A :=
  match o with
  | Some a => Ok a
  | None => Raise AttributeError
  end.

(** [d[k]] on a dictionary. *)
Definition subscript {V} (d : gmap string V) (k : string) : result V :=
  match d !! k with
  | Some v => Ok v
  | None => Raise KeyError
  end.

(** ** Collaborators of the unit classes *)

Module DataObject.

(** Modelled from the spec: the row data object (one column of a row
    collection) lives in [ship.data_structures], outside the sources at
    hand.  The spec gives it positional access to its scalars, a length
    query and a private "max index" that is one past the last existing
    row, so a column is the list of its values and both counters are the
    length of that list. *)
Record t : Set := make { data_collection : list Z }.

(** Modelled from the spec: [data_obj._max], one past the last existing
    row. *)
Definition _max (d : t) : Z := Z.of_nat (length (data_collection d)).
(** Modelled from the spec: [data_obj.record_length], the row count. *)
Definition record_length (d : t) : Z := Z.of_nat (length (data_collection d)).

(** [data_obj[i]] *)
Definition __getitem__ (d : t) (i : Z) : result Z := getitem (data_collection d) i.
(** [data_obj.getValue(i)] *)
Definition getValue (d : t) (i : Z) : result Z := getitem (data_collection d) i.

End DataObject.

Module RowDataCollection.

(** The row collection class is a collaborator as well; the unit only
    calls five of its methods, which stay abstract here. *)
Class t (C : Type) : Type := {
  (** [getDataObject(key)]: the column, or [KeyError] for an unknown key *)
  getDataObject : C → string → result DataObject.t;
  (** [numberOfRows()] *)
  numberOfRows : C → Z;
  (** [row(index)]: the values of one row *)
  row : C → Z → result (gmap string Z);
  (** [addRow(row_vals, index)]: the collection after the call, and
      whether the call raised *)
  addRow : gmap string Z → option Z → meth C ();
  (** [deleteRow(index)] *)
  deleteRow : Z → meth C ();
}.

End RowDataCollection.

Module DATA_TYPES.
(** Modelled from the spec: the type tags of [ship.data_structures]
    (text, integer, float) that the header fields are built with. *)
Inductive t : Set := STRING | INT | FLOAT.
End DATA_TYPES.

Module HeadDataItem.

(** Modelled from the spec: [ship.isis.headdata.HeadDataItem] is
    constructed from a raw string plus a format-width template, a
    (line, column) position, a type tag and an optional decimal
    precision.  An item is the record of these constructor arguments. *)
Record t : Set := make {
  value : string;
  format_str : string;
  line_no : Z;
  col_no : Z;
  dtype : DATA_TYPES.t;
  dps : option Z;
}.

(** [item.format(arg)], with [arg] absent for the call without argument.
    The method is defined with the class, outside the sources at hand, and
    stays abstract. *)
Class formatter : Type := format : t → option bool → string.

End HeadDataItem.

(** What [head_data] holds under a key: a typed field, or the raw lines
    that the catch-all unit stores under ['all']. *)
Inductive head_value : Set :=
| Item (i : HeadDataItem.t)
| Lines (l : list string).

(** What a row accessor hands back. *)
Inductive row_value : Set :=
| VFalse
| VDataObject (d : DataObject.t)
| VList (l : list Z).

(** ** AIsisUnit *)

Module AIsisUnit.

Record t (C : Type) : Type := make {
  _name : string;
  _name_ds : string;
  _data : option (list string);
  _unit_type : string;
  _unit_category : string;
  row_data : gmap string C;
  head_data : gmap string head_value;
  (** assigned by the subclasses only: the line in [__init__] is
      commented out *)
  has_datarows : option bool;
}.
Arguments make {C}.
Arguments _name {C}.
Arguments _name_ds {C}.
Arguments _data {C}.
Arguments _unit_type {C}.
Arguments _unit_category {C}.
Arguments row_data {C}.
Arguments head_data {C}.
Arguments has_datarows {C}.

(** The dictionary returned by [_getAdjacentDataObjDetails]. *)
Record details : Set := {
  index : Z;
  prev_value : option Z;
  prev_index : option Z;
  next_value : option Z;
  next_index : option Z;
}.

Section methods.
Context {C : Type} `{!RowDataCollection.t C}.

Definition __init__ : t C :=
  {| _name := "unknown"; _name_ds := "unknown"; _data := None;
     _unit_type := "Unknown"; _unit_category := "Unknown";
     row_data := ∅; head_data := ∅; has_datarows := None |}.

Definition set_identity (name type category : string) (self : t C) : t C :=
  make name (_name_ds self) (_data self) type category
       (row_data self) (head_data self) (has_datarows self).

Definition set_has_datarows (b : bool) (self : t C) : t C :=
  make (_name self) (_name_ds self) (_data self) (_unit_type self)
       (_unit_category self) (row_data self) (head_data self) (Some b).

Definition set_head_data (h : gmap string head_value) (self : t C) : t C :=
  make (_name self) (_name_ds self) (_data self) (_unit_type self)
       (_unit_category self) (row_data self) h (has_datarows self).

Definition set_row_data (r : gmap string C) (self : t C) : t C :=
  make (_name self) (_name_ds self) (_data self) (_unit_type self)
       (_unit_category self) r (head_data self) (has_datarows self).

(** The [hasRowData] property: [not self.row_data] is true exactly for
    the empty dictionary. *)
Definition hasRowData (self : t C) : bool :=
  if bool_decide (row_data self = ∅) then false else true.

(** [try: ... except KeyError: raise KeyError(...)] *)
Definition except_KeyError {A} (body : result A) : result A :=
  match body with
  | Raise KeyError => Raise KeyError
  | r => r
  end.

Definition rowDataType (self : t C) (key rowdata_key : string) : result row_value :=
  has ← getattr (has_datarows self);
  if negb has then Ok VFalse
  else except_KeyError (
    coll ← subscript (row_data self) rowdata_key;
    d ← RowDataCollection.getDataObject coll key;
    Ok (VDataObject d)).

(** The loop [for i in range(0, data_col.record_length)], [n] rounds
    from position [i] on. *)
Fixpoint collect (data_col : DataObject.t) (n : nat) (i : Z) (vals : list Z)
  : result (list Z) :=
  match n with
  | O => Ok vals
  | S n' =>
      v ← DataObject.getValue data_col i;
      collect data_col n' (i + 1) (vals ++ [v])
  end.

Definition rowDataTypeAsList (self : t C) (key rowdata_key : string) : result row_value :=
  has ← getattr (has_datarows self);
  if negb has then Ok VFalse
  else except_KeyError (
    coll ← subscript (row_data self) rowdata_key;
    data_col ← RowDataCollection.getDataObject coll key;
    vals ← collect data_col (range_len 0 (DataObject.record_length data_col)) 0 [];
    Ok (VList vals)).

Definition row (self : t C) (index : Z) (rowdata_key : string) : result (gmap string Z) :=
  coll ← subscript (row_data self) rowdata_key;
  RowDataCollection.row coll index.

Definition getData (self : t C) : result (list string) := Raise NotImplementedError.

Definition readUnitData (data : list string) (file_line : Z) : meth (t C) () :=
  assign (fun self => set_head_data (<["all" := Lines data]> (head_data self)) self).

Definition deleteRow (index : Z) (rowdata_key : string) : meth (t C) () :=
  self ← self_;
  outside ← eval (if index <? 0 then Ok true
                  else coll ← subscript (row_data self) rowdata_key;
                       Ok (RowDataCollection.numberOfRows coll <=? index));
  if (outside : bool) then eval (Raise IndexError)
  else
    coll ← eval (subscript (row_data self) rowdata_key);
    call (fun self =>
      match RowDataCollection.deleteRow index coll with
      | (coll', r) => (set_row_data (<[rowdata_key := coll']> (row_data self)) self, r)
      end).

Definition updateRow (py : version) (row_vals : gmap string Z)
    (index : option Z) (rowdata_key : string) : meth (t C) () :=
  self ← self_;
  coll ← eval (subscript (row_data self) rowdata_key);
  beyond ← eval (ge py index (RowDataCollection.numberOfRows coll));
  if (beyond : bool) then eval (Raise IndexError)
  else
    (* [collection_name] is no parameter, no local and no module name *)
    collection_name ← eval (load_global "collection_name");
    (* neither branch can run: [row_collection] and
       [additional_row_collections] are never assigned either *)
    eval (Raise AttributeError).

Definition addRow (py : version) (row_vals : gmap string Z)
    (rowdata_key : string) (index : option Z) : meth (t C) () :=
  self ← self_;
  coll ← eval (subscript (row_data self) rowdata_key);
  beyond ← eval (ge py index (RowDataCollection.numberOfRows coll));
  let index := if (beyond : bool) then None else index in
  call (fun self =>
    match RowDataCollection.addRow row_vals index coll with
    | (coll', r) => (set_row_data (<[rowdata_key := coll']> (row_data self)) self, r)
    end).

Definition _getAdjacentDataObjDetails (data_obj : DataObject.t) (value : Z)
    (index : option Z) : result details :=
  let index := match index with
               | None => DataObject._max data_obj
               | Some i => i
               end in
  if index <? 0 then Raise ValueError
  else
    '(prev_index, prev_value) ←
      (if 0 <? index
       then v ← DataObject.__getitem__ data_obj (index - 1);
            Ok (Some (index - 1), Some v)
       else Ok (None, None));
    '(next_index, next_value) ←
      (if index <? DataObject._max data_obj
       then v ← DataObject.__getitem__ data_obj (index + 1);
            Ok (Some (index + 1), Some v)
       else Ok (None, None));
    Ok {| index := index;
          prev_value := prev_value; prev_index := prev_index;
          next_value := next_value; next_index := next_index |}.

(** [if bound: if not test: raise ValueError], where [bound] is taken
    for its truth value. *)
Definition guard (bound : option Z) (test : Z → bool) : result () :=
  if truthy bound
  then match bound with
       | Some b => if negb (test b) then Raise ValueError else Ok ()
       | None => Ok ()
       end
  else Ok ().

Definition checkIncreases (data_obj : DataObject.t) (value : Z)
    (index : option Z) : result () :=
  details ← _getAdjacentDataObjDetails data_obj value index;
  _ ← guard (prev_value details) (fun prev => value >? prev);
  guard (next_value details) (fun next => value <? next).

End methods.

End AIsisUnit.

(** ** UnknownUnit *)

Module UnknownUnit.
Section methods.
Context {C : Type} `{!RowDataCollection.t C}.

(** [token] is the hex digest of the random integer drawn by the
    constructor. *)
Definition __init__ (token : string) : AIsisUnit.t C :=
  AIsisUnit.set_identity ("unknown_" +:+ token) "unknown" "unknown"
    AIsisUnit.__init__.

Definition getData (self : AIsisUnit.t C) : result head_value :=
  subscript (AIsisUnit.head_data self) "all".

Definition readUnitData (data : list string) : meth (AIsisUnit.t C) () :=
  assign (fun self =>
    AIsisUnit.set_head_data (<["all" := Lines data]> (AIsisUnit.head_data self)) self).

End methods.
End UnknownUnit.

(** ** CommentUnit *)

Module CommentUnit.

Definition UNIT_TYPE : string := "comment".
Definition UNIT_CATEGORY : string := "meta".
Definition FILE_KEY : string := "COMMENT".

(** A comment unit: the inherited attributes, the list [data] that the
    constructor always creates, and [no_of_rows], which the constructor
    itself never assigns. *)
Record t (C : Type) : Type := make {
  super : AIsisUnit.t C;
  data : list string;
  no_of_rows : option Z;
}.
Arguments make {C}.
Arguments super {C}.
Arguments data {C}.
Arguments no_of_rows {C}.

Section methods.
Context {C : Type} `{!RowDataCollection.t C}.

Definition set_no_of_rows (n : Z) (self : t C) : t C :=
  make (super self) (data self) (Some n).

(** [self.data.append(line)] *)
Definition append (line : string) (self : t C) : t C :=
  make (super self) (data self ++ [line]) (no_of_rows self).

Definition addCommentText (text : string) (self : t C) : t C :=
  let text := split newline text in
  let self := set_no_of_rows (Z.of_nat (length (data self)) + Z.of_nat (length text)) self in
  foldl (fun self t => append (strip t) self) self text.

Definition __init__ (token : string) (text : string) : t C :=
  let self :=
    {| super := AIsisUnit.set_has_datarows true
                  (AIsisUnit.set_identity ("comment_" +:+ token) UNIT_TYPE
                     UNIT_CATEGORY AIsisUnit.__init__);
       data := [];
       no_of_rows := None |} in
  if negb (String.eqb (strip text) "") then addCommentText text self else self.

(** The body of [for i in range(...)]: [n] rounds, each reading
    [data[file_line]] and moving [file_line] on by one. *)
Fixpoint read_rows (lines : list string) (n : nat) (file_line : Z) : meth (t C) Z :=
  match n with
  | O => mret file_line
  | S n' =>
      l ← eval (getitem lines file_line);
      _ ← assign (append (strip l));
      read_rows lines n' (file_line + 1)
  end.

Definition readUnitData (lines : list string) (file_line : Z) : meth (t C) Z :=
  let file_line := file_line + 1 in
  line ← eval (getitem lines file_line);
  l ← eval (getitem lines file_line);
  n ← eval (int (strip l));
  _ ← assign (set_no_of_rows n);
  let file_line := file_line + 1 in
  file_line ← read_rows lines (range_len file_line (file_line + n)) file_line;
  mret (file_line - 1).

Definition getData (self : t C) : result (list string) :=
  let output := [] in
  let output := output ++ [format_left 10 "COMMENT"] in
  n ← getattr (no_of_rows self);
  let output := output ++ [format_right 10 (str n)] in
  let output := foldl (fun output d => output ++ [d]) output (data self) in
  let output :=
    if n + 2 <? Z.of_nat (length output)
    then slice None (Some (n + 2)) output
    else output in
  Ok output.

End methods.
End CommentUnit.

(** ** HeaderUnit *)

Module HeaderUnit.

Definition UNIT_TYPE : string := "header".
Definition UNIT_CATEGORY : string := "meta".
Definition FILE_KEY : string := "HEADER".

Import DATA_TYPES.

Section methods.
Context {C : Type} `{!RowDataCollection.t C}.

Definition __init__ : AIsisUnit.t C :=
  AIsisUnit.set_has_datarows false
    (AIsisUnit.set_identity "header" UNIT_TYPE UNIT_CATEGORY AIsisUnit.__init__).

(** [HeadDataItem(unit_data[line].strip(), ...)] *)
Definition whole (unit_data : list string) (line : Z) (format_str : string)
    (line_no col_no : Z) (dtype : DATA_TYPES.t) (dps : option Z)
  : result head_value :=
  l ← getitem unit_data line;
  Ok (Item (HeadDataItem.make (strip l) format_str line_no col_no dtype dps)).

(** [HeadDataItem(unit_data[line][lo:hi].strip(), ...)] *)
Definition cut (unit_data : list string) (line : Z) (lo hi : option Z)
    (format_str : string) (line_no col_no : Z) (dtype : DATA_TYPES.t)
    (dps : option Z) : result head_value :=
  l ← getitem unit_data line;
  Ok (Item (HeadDataItem.make (strip (substr lo hi l)) format_str line_no col_no dtype dps)).

Definition readUnitData (unit_data : list string) (file_line : Z)
  : meth (AIsisUnit.t C) Z :=
  name ← eval (whole unit_data 0 "" 0 0 STRING None);
  revision ← eval (whole unit_data 1 "{:>10}" 1 0 STRING None);
  node_count ← eval (cut unit_data 2 None (Some 10) "{:>10}" 2 0 INT None);
  fr_lower ← eval (cut unit_data 2 (Some 10) (Some 20) "{:>10}" 2 1 FLOAT (Some 3));
  fr_upper ← eval (cut unit_data 2 (Some 20) (Some 30) "{:>10}" 2 2 FLOAT (Some 3));
  min_depth ← eval (cut unit_data 2 (Some 30) (Some 40) "{:>10}" 2 3 FLOAT (Some 3));
  direct_method ← eval (cut unit_data 2 (Some 40) (Some 50) "{:>10}" 2 4 FLOAT (Some 3));
  unknown ← eval (cut unit_data 2 (Some 50) (Some 60) "{:>10}" 2 5 STRING None);
  water_temp ← eval (cut unit_data 3 None (Some 10) "{:>10}" 3 0 FLOAT (Some 3));
  flow ← eval (cut unit_data 3 (Some 10) (Some 20) "{:>10}" 3 1 FLOAT (Some 3));
  head ← eval (cut unit_data 3 (Some 20) (Some 30) "{:>10}" 3 2 FLOAT (Some 3));
  math_damp ← eval (cut unit_data 3 (Some 30) (Some 40) "{:>10}" 3 3 FLOAT (Some 3));
  pivot ← eval (cut unit_data 3 (Some 40) (Some 50) "{:>10}" 3 4 FLOAT (Some 3));
  relax ← eval (cut unit_data 3 (Some 50) (Some 60) "{:>10}" 3 5 FLOAT (Some 3));
  dummy ← eval (cut unit_data 3 (Some 60) (Some 70) "{:>10}" 3 6 FLOAT (Some 3));
  roughness ← eval (whole unit_data 5 "{:>10}" 5 0 STRING None);
  _ ← assign (AIsisUnit.set_head_data (list_to_map
         [("name", name); ("revision", revision); ("node_count", node_count);
          ("fr_lower", fr_lower); ("fr_upper", fr_upper);
          ("min_depth", min_depth); ("direct_method", direct_method);
          ("unknown", unknown); ("water_temp", water_temp); ("flow", flow);
          ("head", head); ("math_damp", math_damp); ("pivot", pivot);
          ("relax", relax); ("dummy", dummy); ("roughness", roughness)]%string));
  mret (file_line + 7).

Definition key_order : list string :=
  ["name"; "revision"; "node_count"; "fr_lower"; "fr_upper"; "min_depth";
   "direct_method"; "unknown"; "water_temp"; "flow"; "head";
   "math_damp"; "pivot"; "relax"; "dummy"]%string.

Context `{!HeadDataItem.formatter}.

(** [self.head_data[k].format(arg)]; only a field item has the method. *)
Definition format_field (self : AIsisUnit.t C) (k : string) (arg : option bool)
  : result string :=
  v ← subscript (AIsisUnit.head_data self) k;
  match v with
  | Item i => Ok (HeadDataItem.format i arg)
  | Lines _ => Raise AttributeError
  end.

(** The loop [for k in key_order: out.append(...)]. *)
Fixpoint format_each (self : AIsisUnit.t C) (keys : list string) (out : list string)
  : result (list string) :=
  match keys with
  | [] => Ok out
  | k :: keys =>
      s ← format_field self k (Some true);
      format_each self keys (out ++ [s])
  end.

Definition getData (self : AIsisUnit.t C) : result (list string) :=
  out ← format_each self key_order [];
  let out := split newline (String.concat "" out) in
  let out := out ++ ["RAD FILE"%string] in
  roughness ← format_field self "roughness" None;
  let out := out ++ [roughness] in
  let out := out ++ ["END GENERAL"%string] in
  Ok out.

End methods.
End HeaderUnit.

(** ** A concrete row collection *)

Module Chainage.

(** Modelled from the spec: the smallest row collection that offers what
    the spec asks of one, a single column ["chainage"] without an
    ordering callback.  The column is fetched by key ([KeyError] for any
    other key), the row count is its length, a row is inserted before
    [index] (with the positions of [list.insert]) or appended, and a row
    is read or deleted at its index. *)
Definition t : Set := list Z.

Definition getDataObject (c : t) (key : string) : result DataObject.t :=
  if String.eqb key "chainage" then Ok (DataObject.make c) else Raise KeyError.

Definition numberOfRows (c : t) : Z := Z.of_nat (length c).

Definition addRow (row_vals : gmap string Z) (index : option Z) : meth t () :=
  fun c =>
    match row_vals !! "chainage"%string with
    | None => (c, Raise ValueError)
    | Some v =>
        match index with
        | None => (c ++ [v], Ok ())
        | Some i =>
            let at_ := Z.to_nat (bound (Z.of_nat (length c)) 0 (Some i)) in
            (take at_ c ++ v :: drop at_ c, Ok ())
        end
    end.

Definition row (c : t) (index : Z) : result (gmap string Z) :=
  v ← getitem c index;
  Ok {[ "chainage"%string := v ]}.

Definition deleteRow (index : Z) : meth t () :=
  fun c =>
    match getitem c index with
    | Ok _ =>
        let at_ := Z.to_nat (if index <? 0 then index + Z.of_nat (length c) else index) in
        (take at_ c ++ drop (S at_) c, Ok ())
    | Raise e => (c, Raise e)
    end.

#[global] Instance collection : RowDataCollection.t t :=
  {| RowDataCollection.getDataObject := getDataObject;
     RowDataCollection.numberOfRows := numberOfRows;
     RowDataCollection.row := row;
     RowDataCollection.addRow := addRow;
     RowDataCollection.deleteRow := deleteRow |}.

End Chainage.

(** ** Sample objects *)

(** A unit that holds the column [1, 3, 5] under ['main']. *)
Definition river : AIsisUnit.t Chainage.t :=
  AIsisUnit.set_row_data {[ "main"%string := [1; 3; 5] ]} AIsisUnit.__init__.

Definition new_row : gmap string Z := {[ "chainage"%string := 7 ]}.

(** A header unit and a comment unit over the same collection type. *)
Definition header : AIsisUnit.t Chainage.t := HeaderUnit.__init__.
Definition comment (text : string) : CommentUnit.t Chainage.t :=
  CommentUnit.__init__ "c0ffee" text.

(** A comment unit whose count was lowered to one while three lines are
    held. *)
Definition lowered : CommentUnit.t Chainage.t :=
  CommentUnit.make (CommentUnit.super (comment "")) ["a"; "b"; "c"]%string (Some 1).

(** A COMMENT block of two rows followed by another line. *)
Definition comment_block : list string :=
  ["COMMENT"; "         2"; "  first row"; "second row  "; "END"]%string.

(** A HEADER block of seven lines. *)
Definition header_block : list string :=
  ["Example model";
   "#REVISION#1";
   "        12     0.750     0.900     0.100     0.001        12";
   "    10.000     0.010     0.010     0.700     0.100     0.700     0.000";
   "RAD FILE";
   "";
   "END GENERAL"]%string.

(** ** The header layout as the specification tabulates it *)

Module HeaderLayout.

Import DATA_TYPES.

(** Where a field sits on its line: the whole line, or the characters
    from column [lo] up to, not including, column [hi]. *)
Inductive columns : Set :=
| WholeLine
| Columns (lo hi : nat).

Record row : Set := field {
  name : string;
  line : nat;
  cols : columns;
  type : DATA_TYPES.t;
  precision : option Z;
}.

Definition table : list row :=
  [ field "name" 0 WholeLine STRING None;
    field "revision" 1 WholeLine STRING None;
    field "node_count" 2 (Columns 0 10) INT None;
    field "fr_lower" 2 (Columns 10 20) FLOAT (Some 3);
    field "fr_upper" 2 (Columns 20 30) FLOAT (Some 3);
    field "min_depth" 2 (Columns 30 40) FLOAT (Some 3);
    field "direct_method" 2 (Columns 40 50) FLOAT (Some 3);
    field "unknown" 2 (Columns 50 60) STRING None;
    field "water_temp" 3 (Columns 0 10) FLOAT (Some 3);
    field "flow" 3 (Columns 10 20) FLOAT (Some 3);
    field "head" 3 (Columns 20 30) FLOAT (Some 3);
    field "math_damp" 3 (Columns 30 40) FLOAT (Some 3);
    field "pivot" 3 (Columns 40 50) FLOAT (Some 3);
    field "relax" 3 (Columns 50 60) FLOAT (Some 3);
    field "dummy" 3 (Columns 60 70) FLOAT (Some 3);
    field "roughness" 5 WholeLine STRING None ]%string.

(** The text of a field on its raw line. *)
Definition text (c : columns) (raw : string) : string :=
  match c with
  | WholeLine => raw
  | Columns lo hi => String.substring lo (hi - lo) raw
  end.

(** A stored header value is the typed field that a table row describes,
    read from the raw line. *)
Definition describes (r : row) (raw : string) (v : head_value) : Prop :=
  ∃ item, v = Item item
    ∧ HeadDataItem.value item = strip (text (cols r) raw)
    ∧ HeadDataItem.dtype item = type r
    ∧ HeadDataItem.dps item = precision r.

End HeaderLayout.

(** Trailing whitespace only, the reading of "stripped" that the comment
    block description uses; [Py.rstrip] is [str.rstrip]. *)
Definition trailing_stripped (lines : list string) : list string := rstrip <$> lines.

(** The dictionary that [readUnitData] builds from the lines 0, 1, 2, 3
    and 5. *)
Definition fields_of (l0 l1 l2 l3 l5 : string) : gmap string head_value :=
  let item := HeadDataItem.make in
  let float := DATA_TYPES.FLOAT in
  list_to_map
    [("name", Item (item (strip l0) "" 0 0 DATA_TYPES.STRING None));
     ("revision", Item (item (strip l1) "{:>10}" 1 0 DATA_TYPES.STRING None));
     ("node_count",
      Item (item (strip (substr None (Some 10) l2)) "{:>10}" 2 0 DATA_TYPES.INT None));
     ("fr_lower",
      Item (item (strip (substr (Some 10) (Some 20) l2)) "{:>10}" 2 1 float (Some 3)));
     ("fr_upper",
      Item (item (strip (substr (Some 20) (Some 30) l2)) "{:>10}" 2 2 float (Some 3)));
     ("min_depth",
      Item (item (strip (substr (Some 30) (Some 40) l2)) "{:>10}" 2 3 float (Some 3)));
     ("direct_method",
      Item (item (strip (substr (Some 40) (Some 50) l2)) "{:>10}" 2 4 float (Some 3)));
     ("unknown",
      Item (item (strip (substr (Some 50) (Some 60) l2)) "{:>10}" 2 5
              DATA_TYPES.STRING None));
     ("water_temp",
      Item (item (strip (substr None (Some 10) l3)) "{:>10}" 3 0 float (Some 3)));
     ("flow",
      Item (item (strip (substr (Some 10) (Some 20) l3)) "{:>10}" 3 1 float (Some 3)));
     ("head",
      Item (item (strip (substr (Some 20) (Some 30) l3)) "{:>10}" 3 2 float (Some 3)));
     ("math_damp",
      Item (item (strip (substr (Some 30) (Some 40) l3)) "{:>10}" 3 3 float (Some 3)));
     ("pivot",
      Item (item (strip (substr (Some 40) (Some 50) l3)) "{:>10}" 3 4 float (Some 3)));
     ("relax",
      Item (item (strip (substr (Some 50) (Some 60) l3)) "{:>10}" 3 5 float (Some 3)));
     ("dummy",
      Item (item (strip (substr (Some 60) (Some 70) l3)) "{:>10}" 3 6 float (Some 3)));
     ("roughness", Item (item (strip l5) "{:>10}" 5 0 DATA_TYPES.STRING None))]%string.

(** Every line that a sequence of texts contributes when each text is split
    at line breaks and each piece is stripped. *)
Definition lines_of (texts : list string) : list string :=
  flat_map (fun text => strip <$> split newline text) texts.

(** Successive [addCommentText] calls, first text first. *)
Definition add_all {C} (texts : list string) (u : CommentUnit.t C) : CommentUnit.t C :=
  foldl (fun u text => CommentUnit.addCommentText text u) u texts.

(** ** More sample objects *)

(** The unit [river], flagged as having rows. *)
Definition surveyed : AIsisUnit.t Chainage.t := AIsisUnit.set_has_datarows true river.

(** A comment unit filled through [addCommentText] alone. *)
Definition noted : CommentUnit.t Chainage.t :=
  add_all ["note one"; String.append "two" (String newline " three ")]%string (comment "").

(** A block of rows with lines before and after it. *)
Definition rows_before : list string := ["JUNCTION"]%string.
Definition rows_read : list string := ["  first row"; "second row  "]%string.
Definition rows_after : list string := ["END"]%string.

(** A stand-in for the formatter of the header fields, which writes the
    text of a field as it is. *)
Definition unpadded : HeadDataItem.formatter := fun item _ => HeadDataItem.value item.

(** * Properties *)

(** ** Built-ins *)

Lemma getitem_nat {A} (l : list A) (i : nat) (x : A) :
  l !! i = Some x → getitem l (Z.of_nat i) = Ok x.
Proof.
  intros Hx. unfold getitem.
  pose proof (lookup_lt_Some _ _ _ Hx) as Hlt.
  destruct (Z.ltb_spec (Z.of_nat i) 0) as [Hneg|_]; [lia|].
  destruct (Z.leb_spec 0 (Z.of_nat i)) as [_|Hneg]; [|lia].
  destruct (Z.ltb_spec (Z.of_nat i) (Z.of_nat (length l))) as [_|Hge]; [|lia].
  simpl. by rewrite Nat2Z.id, Hx.
Qed.

Lemma getitem_beyond {A} (l : list A) (i : Z) :
  Z.of_nat (length l) <= i → getitem l i = Raise IndexError.
Proof.
  intros Hge. unfold getitem.
  destruct (Z.ltb_spec i 0) as [Hneg|_]; [lia|].
  destruct (Z.ltb_spec i (Z.of_nat (length l))) as [Hlt|_]; [lia|].
  by rewrite andb_false_r.
Qed.

Lemma getitem_middle {A} (pre post : list A) (x : A) :
  getitem (pre ++ x :: post) (Z.of_nat (length pre)) = Ok x.
Proof. apply getitem_nat. by rewrite list_lookup_middle. Qed.

Lemma append_each {A} (out l : list A) :
  foldl (fun out d => out ++ [d]) out l = out ++ l.
Proof.
  revert out. induction l as [|d l IH]; intros out; simpl.
  - by rewrite app_nil_r.
  - by rewrite IH, <- app_assoc.
Qed.

Lemma split_nonempty (sep : ascii) (s : string) : split sep s ≠ [].
Proof.
  destruct s as [|c s]; simpl; [done|].
  destruct (Ascii.eqb c sep); [done|]. by destruct (split sep s).
Qed.

(** ** CommentUnit *)

Section comment_unit.
Context {C : Type} `{!RowDataCollection.t C}.
Implicit Types (self u : CommentUnit.t C).

Lemma append_all self (pieces : list string) :
  foldl (fun self t => CommentUnit.append (strip t) self) self pieces
  = CommentUnit.make (CommentUnit.super self)
      (CommentUnit.data self ++ (strip <$> pieces)) (CommentUnit.no_of_rows self).
Proof.
  revert self. induction pieces as [|t pieces IH]; intros self; simpl.
  - rewrite app_nil_r. by destruct self.
  - rewrite IH. simpl. by rewrite <- app_assoc.
Qed.

Lemma addCommentText_eq text self :
  CommentUnit.addCommentText text self
  = CommentUnit.make (CommentUnit.super self)
      (CommentUnit.data self ++ (strip <$> split newline text))
      (Some (Z.of_nat (length (CommentUnit.data self ++ (strip <$> split newline text))))).
Proof.
  unfold CommentUnit.addCommentText. rewrite append_all. simpl.
  by rewrite length_app, length_fmap, Nat2Z.inj_add.
Qed.

(** The text-append path keeps the stored count equal to the number of
    stored lines. *)
Lemma add_all_eq texts self :
  texts ≠ [] →
  add_all texts self
  = CommentUnit.make (CommentUnit.super self)
      (CommentUnit.data self ++ lines_of texts)
      (Some (Z.of_nat (length (CommentUnit.data self ++ lines_of texts)))).
Proof.
  revert self. induction texts as [|text texts IH]; intros self Hne; [done|].
  unfold add_all in *. simpl. destruct texts as [|text' texts].
  - simpl. rewrite app_nil_r. apply addCommentText_eq.
  - rewrite IH by done. rewrite addCommentText_eq. simpl.
    unfold lines_of. simpl. by rewrite <- !app_assoc.
Qed.

Lemma init_with_text token text :
  strip text ≠ EmptyString →
  CommentUnit.__init__ token text
  = CommentUnit.addCommentText text (CommentUnit.__init__ (C:=C) token "").
Proof.
  intros Hne. unfold CommentUnit.__init__.
  destruct (String.eqb_spec (strip text) "") as [Heq|_]; [done|].
  by simpl.
Qed.

Lemma getData_in_step self (n : Z) :
  CommentUnit.no_of_rows self = Some n →
  n = Z.of_nat (length (CommentUnit.data self)) →
  CommentUnit.getData self
  = Ok (format_left 10 "COMMENT" :: format_right 10 (str n) :: CommentUnit.data self).
Proof.
  intros Hn Hlen. unfold CommentUnit.getData. rewrite Hn. simpl.
  rewrite append_each. simpl.
  destruct (Z.ltb_spec (n + 2) (Z.of_nat (S (S (length (CommentUnit.data self))))));
    [lia|done].
Qed.

Lemma add_all_fresh (token : string) (texts : list string) :
  texts ≠ [] →
  add_all texts (CommentUnit.__init__ (C:=C) token "")
  = CommentUnit.make (CommentUnit.super (CommentUnit.__init__ (C:=C) token ""))
      (lines_of texts) (Some (Z.of_nat (length (lines_of texts)))).
Proof. intros Hne. by rewrite add_all_eq. Qed.

Lemma getData_add_all (token : string) (texts : list string) :
  texts ≠ [] →
  CommentUnit.getData (add_all texts (CommentUnit.__init__ (C:=C) token ""))
  = Ok ("COMMENT   "%string
          :: format_right 10 (str (Z.of_nat (length (lines_of texts))))
          :: lines_of texts).
Proof.
  intros Hne. rewrite add_all_fresh by done. by erewrite getData_in_step.
Qed.

(** C6: after [N] lines of text have been added through [addCommentText]
    alone, [getData] returns [N + 2] lines: the tag [COMMENT] padded on
    the right to ten characters, the count [N] padded on the left to ten
    characters, and the [N] stored lines in the order they were added. *)
Theorem comment_getData_after_text (token first : string) (rest : list string) :
  let u : CommentUnit.t C := add_all (first :: rest) (CommentUnit.__init__ token "") in
  let N := length (lines_of (first :: rest)) in
  CommentUnit.data u = lines_of (first :: rest)
  ∧ CommentUnit.getData u
    = Ok ("COMMENT   "%string :: format_right 10 (str (Z.of_nat N))
            :: lines_of (first :: rest))
  ∧ ∀ output, CommentUnit.getData u = Ok output → length output = (N + 2)%nat.
Proof.
  intros u N. subst u N.
  pose proof (getData_add_all token (first :: rest)) as Hget.
  rewrite Hget by done.
  split; [by rewrite add_all_fresh|]. split; [done|].
  intros output Hout. injection Hout as <-. simpl. lia.
Qed.

(** The same through the constructor: a unit built with text that is not
    blank has had that text added. *)
Lemma comment_getData_after_init (token text : string) :
  strip text ≠ EmptyString →
  CommentUnit.getData (CommentUnit.__init__ (C:=C) token text)
  = Ok ("COMMENT   "%string
          :: format_right 10 (str (Z.of_nat (length (lines_of [text]))))
          :: lines_of [text]).
Proof.
  intros Hne. rewrite init_with_text by done.
  by apply (getData_add_all token [text]).
Qed.

End comment_unit.


Section comment_unit_read.
Context {C : Type} `{!RowDataCollection.t C}.
Implicit Types (self u : CommentUnit.t C).

(** The loop of [readUnitData] over a block whose rows are all present. *)
Lemma read_rows_block self (pre body post : list string) :
  CommentUnit.read_rows (pre ++ body ++ post) (length body) (Z.of_nat (length pre)) self
  = (CommentUnit.make (CommentUnit.super self)
       (CommentUnit.data self ++ (strip <$> body)) (CommentUnit.no_of_rows self),
     Ok (Z.of_nat (length pre) + Z.of_nat (length body))).
Proof.
  revert self pre. induction body as [|b body IH]; intros self pre.
  - simpl. rewrite app_nil_r, Z.add_0_r. by destruct self.
  - cbn [CommentUnit.read_rows length].
    unfold mbind, meth_bind, eval, assign. simpl app.
    rewrite getitem_middle.
    replace (Z.of_nat (length pre) + 1) with (Z.of_nat (length (pre ++ [b])))
      by (rewrite length_app; simpl; lia).
    replace (pre ++ b :: body ++ post) with ((pre ++ [b]) ++ body ++ post)
      by (by rewrite <- app_assoc).
    rewrite IH. simpl. rewrite <- app_assoc. simpl.
    do 2 f_equal. rewrite length_app. simpl. lia.
Qed.

(** The loop stops with [IndexError] as soon as a row is missing, keeping
    the rows appended so far. *)
Lemma read_rows_short self (pre body : list string) (extra : nat) :
  snd (CommentUnit.read_rows (pre ++ body) (length body + S extra)
         (Z.of_nat (length pre)) self)
  = Raise IndexError.
Proof.
  revert self pre. induction body as [|b body IH]; intros self pre.
  - simpl. unfold mbind, meth_bind, eval. rewrite getitem_beyond; [done|].
    rewrite app_nil_r. lia.
  - cbn [CommentUnit.read_rows length Nat.add].
    unfold mbind, meth_bind, eval, assign.
    rewrite getitem_middle.
    replace (Z.of_nat (length pre) + 1) with (Z.of_nat (length (pre ++ [b])))
      by (rewrite length_app; simpl; lia).
    replace (pre ++ b :: body) with ((pre ++ [b]) ++ body)
      by (by rewrite <- app_assoc).
    apply IH.
Qed.

(** What [readUnitData] does on a well-formed block: the count line gives
    [N], the [N] lines after it are appended with the whitespace at both
    ends removed, and the cursor returned is [cursor + 1 + N]. *)
Lemma readUnitData_block self (pre body post : list string) (tag count : string) :
  int (strip count) = Ok (Z.of_nat (length body)) →
  CommentUnit.readUnitData (pre ++ tag :: count :: body ++ post)
    (Z.of_nat (length pre)) self
  = (CommentUnit.make (CommentUnit.super self)
       (CommentUnit.data self ++ (strip <$> body))
       (Some (Z.of_nat (length body))),
     Ok (Z.of_nat (length pre) + 1 + Z.of_nat (length body))).
Proof.
  intros Hcount. unfold CommentUnit.readUnitData.
  unfold mbind, meth_bind, eval, assign.
  replace (Z.of_nat (length pre) + 1) with (Z.of_nat (length (pre ++ [tag])))
    by (rewrite length_app; simpl; lia).
  replace (pre ++ tag :: count :: body ++ post)
    with ((pre ++ [tag]) ++ count :: body ++ post) by (by rewrite <- app_assoc).
  rewrite getitem_middle, Hcount.
  replace (Z.of_nat (length (pre ++ [tag])) + 1)
    with (Z.of_nat (length ((pre ++ [tag]) ++ [count])))
    by (rewrite !length_app; simpl; lia).
  replace ((pre ++ [tag]) ++ count :: body ++ post)
    with (((pre ++ [tag]) ++ [count]) ++ body ++ post) by (by rewrite <- !app_assoc).
  unfold range_len.
  replace (Z.to_nat (Z.of_nat (length ((pre ++ [tag]) ++ [count]))
                     + Z.of_nat (length body)
                     - Z.of_nat (length ((pre ++ [tag]) ++ [count]))))
    with (length body) by lia.
  rewrite read_rows_block. simpl. unfold mret, meth_ret.
  do 2 f_equal. rewrite !length_app. simpl. lia.
Qed.

(** C5 (as the code has it): on a well-formed COMMENT block at the cursor
    (tag line, a count line that [int] reads as [N], then at least [N]
    further lines), [readUnitData] stores exactly the [N] following lines,
    each with the whitespace removed at both of its ends, and returns
    [cursor + 1 + N]. *)
Theorem comment_read_block self (lines : list string) (cursor : Z) (N : nat)
    (count : string) :
  0 <= cursor →
  getitem lines (cursor + 1) = Ok count →
  int (strip count) = Ok (Z.of_nat N) →
  cursor + 2 + Z.of_nat N <= Z.of_nat (length lines) →
  let rows := take N (drop (Z.to_nat cursor + 2) lines) in
  length rows = N
  ∧ CommentUnit.readUnitData lines cursor self
    = (CommentUnit.make (CommentUnit.super self)
         (CommentUnit.data self ++ (strip <$> rows)) (Some (Z.of_nat N)),
       Ok (cursor + 1 + Z.of_nat N)).
Proof.
  intros Hcur Hline Hcount Hlen rows.
  assert (Hrows : length rows = N).
  { subst rows. rewrite length_take, length_drop. lia. }
  split; [done|].
  set (k := Z.to_nat cursor).
  assert (Hk : cursor = Z.of_nat k) by lia.
  destruct (lookup_lt_is_Some_2 lines k) as [tag Htag]; [lia|].
  destruct (lookup_lt_is_Some_2 lines (S k)) as [count' Hc]; [lia|].
  assert (count' = count) as ->.
  { apply (getitem_nat _ _ _) in Hc.
    replace (Z.of_nat (S k)) with (cursor + 1) in Hc by lia. congruence. }
  assert (Hsplit : lines = take k lines ++ tag :: count :: rows ++ drop (k + 2 + N) lines).
  { rewrite <- (take_drop k lines) at 1. f_equal.
    rewrite (drop_S _ tag k) by done. f_equal.
    rewrite (drop_S _ count (S k)) by done. f_equal.
    subst rows. fold k.
    rewrite <- (take_drop N (drop (S (S k)) lines)) at 1.
    replace (k + 2)%nat with (S (S k)) by lia. f_equal.
    rewrite drop_drop. f_equal; lia. }
  assert (Hpre : length (take k lines) = k) by (rewrite length_take; lia).
  rewrite <- Hrows in Hcount.
  pose proof (readUnitData_block self (take k lines) rows
                (drop (k + 2 + N) lines) tag count Hcount) as Hread.
  rewrite <- Hsplit, Hpre, Hrows, <- Hk in Hread. exact Hread.
Qed.

(** C7: when the stored count is lower than the number of lines held,
    [getData] returns [count + 2] lines: the tag, the count, and only the
    first [count] stored lines. *)
Theorem comment_getData_truncates self (count : Z) :
  CommentUnit.no_of_rows self = Some count →
  0 <= count < Z.of_nat (length (CommentUnit.data self)) →
  ∃ output,
    CommentUnit.getData self = Ok output
    ∧ output = format_left 10 "COMMENT" :: format_right 10 (str count)
                 :: take (Z.to_nat count) (CommentUnit.data self)
    ∧ Z.of_nat (length output) = count + 2.
Proof.
  intros Hn [Hlo Hhi]. eexists. split; [|split].
  - unfold CommentUnit.getData. rewrite Hn. simpl. rewrite append_each. simpl.
    destruct (Z.ltb_spec (count + 2)
                (Z.of_nat (S (S (length (CommentUnit.data self)))))) as [_|?]; [|lia].
    unfold slice, bound. simpl length.
    destruct (Z.ltb_spec (count + 2) 0) as [?|_]; [lia|].
    rewrite Z.min_l by lia. rewrite Z.sub_0_r. simpl drop.
    replace (Z.to_nat (count + 2)) with (S (S (Z.to_nat count))) by lia.
    reflexivity.
  - reflexivity.
  - simpl. rewrite length_take. lia.
Qed.

(** A count at or above the number of lines held cuts nothing. *)
Lemma comment_getData_no_cut self (count : Z) :
  CommentUnit.no_of_rows self = Some count →
  Z.of_nat (length (CommentUnit.data self)) <= count →
  CommentUnit.getData self
  = Ok (format_left 10 "COMMENT" :: format_right 10 (str count) :: CommentUnit.data self).
Proof.
  intros Hn Hlen. unfold CommentUnit.getData. rewrite Hn. simpl.
  rewrite append_each. simpl.
  destruct (Z.ltb_spec (count + 2)
              (Z.of_nat (S (S (length (CommentUnit.data self)))))); [lia|done].
Qed.

(** C10: a comment unit constructed with the default empty text has no
    [no_of_rows] attribute, so [getData] raises [AttributeError]. *)
Theorem comment_getData_fresh (token : string) :
  CommentUnit.no_of_rows (CommentUnit.__init__ (C:=C) token "") = None
  ∧ CommentUnit.getData (CommentUnit.__init__ (C:=C) token "") = Raise AttributeError.
Proof. split; reflexivity. Qed.

(** The same for any text made of whitespace only. *)
Lemma comment_getData_blank (token text : string) :
  strip text = EmptyString →
  CommentUnit.getData (CommentUnit.__init__ (C:=C) token text) = Raise AttributeError.
Proof.
  intros Hblank. unfold CommentUnit.__init__. rewrite Hblank. reflexivity.
Qed.

(** [no_of_rows] comes into being in [addCommentText] and [readUnitData]
    only: after either, [getData] returns. *)
Lemma comment_getData_after_add (text : string) self :
  ∃ output, CommentUnit.getData (CommentUnit.addCommentText text self) = Ok output.
Proof. rewrite addCommentText_eq. eexists. by erewrite getData_in_step. Qed.

End comment_unit_read.

(** ** AIsisUnit: the ordering check *)

Section ordering_check.
Import AIsisUnit.

Lemma guard_truthy (b : Z) (test : Z → bool) :
  b ≠ 0 → guard (Some b) test = if test b then Ok () else Raise ValueError.
Proof.
  intros Hb. unfold guard, truthy.
  destruct (Z.eqb_spec b 0) as [?|_]; [done|]. simpl. by destruct (test b).
Qed.

(** A neighbour that is zero switches its own bound off. *)
Lemma guard_zero (test : Z → bool) : guard (Some 0) test = Ok ().
Proof. reflexivity. Qed.

Lemma guard_absent (test : Z → bool) : guard None test = Ok ().
Proof. reflexivity. Qed.

(** X19: a negative position is refused with [ValueError] before any value
    is compared. *)
Lemma checkIncreases_negative (col : list Z) (value i : Z) :
  i < 0 → checkIncreases (DataObject.make col) value (Some i) = Raise ValueError.
Proof.
  intros Hneg. unfold checkIncreases, _getAdjacentDataObjDetails.
  destruct (Z.ltb_spec i 0) as [_|?]; [done|lia].
Qed.

(** X20: strictly inside the column, with neighbours that are not zero, the
    check raises [ValueError] exactly when the candidate is not strictly
    between the value before the position and the value after it. *)
Lemma checkIncreases_inside (col : list Z) (value : Z) (i : nat) (prev next : Z) :
  col !! i = Some prev → col !! (i + 2)%nat = Some next →
  prev ≠ 0 → next ≠ 0 →
  checkIncreases (DataObject.make col) value (Some (Z.of_nat (i + 1)))
  = if (prev <? value) && (value <? next) then Ok () else Raise ValueError.
Proof.
  intros Hprev Hnext Hp Hn.
  pose proof (lookup_lt_Some _ _ _ Hnext) as Hlen.
  unfold checkIncreases, _getAdjacentDataObjDetails, DataObject._max,
    DataObject.__getitem__. simpl DataObject.data_collection.
  destruct (Z.ltb_spec (Z.of_nat (i + 1)) 0) as [?|_]; [lia|].
  destruct (Z.ltb_spec 0 (Z.of_nat (i + 1))) as [_|?]; [|lia].
  destruct (Z.ltb_spec (Z.of_nat (i + 1)) (Z.of_nat (length col))) as [_|?]; [|lia].
  replace (Z.of_nat (i + 1) - 1) with (Z.of_nat i) by lia.
  replace (Z.of_nat (i + 1) + 1) with (Z.of_nat (i + 2)) by lia.
  rewrite (getitem_nat _ _ _ Hprev), (getitem_nat _ _ _ Hnext). simpl.
  rewrite !guard_truthy by done.
  rewrite Z.gtb_ltb. destruct (prev <? value); simpl; [|done].
  by destruct (value <? next).
Qed.

(** X22: at the append position, which is also where an omitted index lands,
    only the last value bounds the candidate, provided it is not zero. *)
Lemma checkIncreases_append (col : list Z) (value last : Z) (index : option Z) :
  index = None ∨ index = Some (Z.of_nat (length (col ++ [last]))) →
  last ≠ 0 →
  checkIncreases (DataObject.make (col ++ [last])) value index
  = if last <? value then Ok () else Raise ValueError.
Proof.
  intros Hindex Hlast.
  assert (Hlen : length (col ++ [last]) = S (length col))
    by (rewrite length_app; simpl; lia).
  assert (Hget : getitem (col ++ [last]) (Z.of_nat (length col)) = Ok last)
    by apply getitem_middle.
  unfold checkIncreases, _getAdjacentDataObjDetails, DataObject._max,
    DataObject.__getitem__. simpl DataObject.data_collection.
  assert (Hi : match index with
               | Some i => i
               | None => Z.of_nat (length (col ++ [last]))
               end = Z.of_nat (length (col ++ [last])))
    by (by destruct Hindex as [-> | ->]).
  rewrite Hi, Hlen.
  destruct (Z.ltb_spec (Z.of_nat (S (length col))) 0) as [?|_]; [lia|].
  destruct (Z.ltb_spec 0 (Z.of_nat (S (length col)))) as [_|?]; [|lia].
  rewrite Z.ltb_irrefl.
  replace (Z.of_nat (S (length col)) - 1) with (Z.of_nat (length col)) by lia.
  rewrite Hget. simpl.
  rewrite guard_truthy by done. rewrite Z.gtb_ltb.
  by destruct (last <? value).
Qed.

(** X23: on the last existing row the position is still below [_max], so the
    value after it is looked up one past the end of the column and the
    check ends in [IndexError], whatever the candidate is. *)
Lemma checkIncreases_last_row (col : list Z) (value last : Z) :
  checkIncreases (DataObject.make (col ++ [last])) value (Some (Z.of_nat (length col)))
  = Raise IndexError.
Proof.
  assert (Hlen : length (col ++ [last]) = S (length col))
    by (rewrite length_app; simpl; lia).
  unfold checkIncreases, _getAdjacentDataObjDetails, DataObject._max,
    DataObject.__getitem__. simpl DataObject.data_collection.
  rewrite Hlen.
  destruct (Z.ltb_spec (Z.of_nat (length col)) 0) as [?|_]; [lia|].
  destruct (Z.ltb_spec (Z.of_nat (length col)) (Z.of_nat (S (length col)))) as [_|?];
    [|lia].
  rewrite (getitem_beyond (col ++ [last]) (Z.of_nat (length col) + 1)) by lia.
  destruct (Z.ltb_spec 0 (Z.of_nat (length col))) as [Hpos|_]; [|reflexivity].
  destruct (lookup_lt_is_Some_2 (col ++ [last]) (length col - 1)) as [prev Hprev];
    [lia|].
  apply getitem_nat in Hprev.
  replace (Z.of_nat (length col - 1)) with (Z.of_nat (length col) - 1) in Hprev by lia.
  rewrite Hprev. reflexivity.
Qed.

(** C1: the candidate [-1] at position 1 of the column [0, 5, 9] is not
    greater than the value before the position, yet [checkIncreases] does
    not raise: the previous value is zero, which the check takes for an
    absent neighbour.  The same happens at the append position. *)
Theorem checkIncreases_zero_neighbour :
  DataObject.__getitem__ (DataObject.make [0; 5; 9]) 0 = Ok 0
  ∧ ¬ (-1 > 0)
  ∧ checkIncreases (DataObject.make [0; 5; 9]) (-1) (Some 1) = Ok ()
  ∧ checkIncreases (DataObject.make [0]) (-1) None = Ok ()
  ∧ checkIncreases (DataObject.make [-3; 0]) 4 (Some 0) = Ok ().
Proof. repeat split; try reflexivity. lia. Qed.

End ordering_check.

(** ** AIsisUnit: rows *)

Section rows.
Context {C : Type} `{!RowDataCollection.t C}.
Implicit Types (self : AIsisUnit.t C) (coll : C).
Import AIsisUnit.

Lemma collection_name_unbound : load_global "collection_name" = Raise NameError.
Proof. reflexivity. Qed.

(** X18: [deleteRow] refuses every index outside [0, rowCount) with
    [IndexError] and leaves the unit as it was. *)
Lemma deleteRow_outside self coll (i : Z) (rowdata_key : string) :
  row_data self !! rowdata_key = Some coll →
  i < 0 ∨ RowDataCollection.numberOfRows coll <= i →
  deleteRow i rowdata_key self = (self, Raise IndexError).
Proof.
  intros Hcoll Hi. unfold deleteRow, mbind, meth_bind, self_, eval, subscript.
  rewrite Hcoll. simpl.
  destruct (Z.ltb_spec i 0) as [?|?]; [done|].
  destruct (Z.leb_spec (RowDataCollection.numberOfRows coll) i); [done|lia].
Qed.

(** The guard of [updateRow]: an index at or beyond the row count is an
    [IndexError], and the unit is left as it was. *)
Lemma updateRow_beyond (py : version) self coll (row_vals : gmap string Z)
    (i : Z) (rowdata_key : string) :
  row_data self !! rowdata_key = Some coll →
  RowDataCollection.numberOfRows coll <= i →
  updateRow py row_vals (Some i) rowdata_key self = (self, Raise IndexError).
Proof.
  intros Hcoll Hi. unfold updateRow, mbind, meth_bind, self_, eval, subscript.
  rewrite Hcoll. simpl.
  destruct (Z.leb_spec (RowDataCollection.numberOfRows coll) i); [done|lia].
Qed.

(** C2: for an index below the row count, [updateRow] does not replace
    anything: it stops at the unbound name [collection_name] with a
    [NameError], the unit and its row collection untouched. *)
Theorem updateRow_valid_index (py : version) self coll (row_vals : gmap string Z)
    (i : Z) (rowdata_key : string) :
  row_data self !! rowdata_key = Some coll →
  i < RowDataCollection.numberOfRows coll →
  updateRow py row_vals (Some i) rowdata_key self = (self, Raise NameError).
Proof.
  intros Hcoll Hi. unfold updateRow, mbind, meth_bind, self_, eval, subscript.
  rewrite Hcoll. simpl.
  destruct (Z.leb_spec (RowDataCollection.numberOfRows coll) i); [lia|done].
Qed.

(** An index at or beyond the row count is turned into [None] before the
    collection is called. *)
Lemma addRow_beyond (py : version) self coll (row_vals : gmap string Z)
    (i : Z) (rowdata_key : string) :
  row_data self !! rowdata_key = Some coll →
  RowDataCollection.numberOfRows coll <= i →
  addRow py row_vals rowdata_key (Some i) self
  = (set_row_data
       (<[rowdata_key := fst (RowDataCollection.addRow row_vals None coll)]> (row_data self))
       self,
     snd (RowDataCollection.addRow row_vals None coll)).
Proof.
  intros Hcoll Hi. unfold addRow, mbind, meth_bind, self_, eval, call, subscript.
  rewrite Hcoll. simpl.
  destruct (Z.leb_spec (RowDataCollection.numberOfRows coll) i); [|lia].
  by destruct (RowDataCollection.addRow row_vals None coll).
Qed.

(** Under Python 2 the omitted index passes the comparison and reaches the
    collection as [None], so both calls do the same. *)
Lemma addRow_beyond_py2 self coll (row_vals : gmap string Z) (i : Z)
    (rowdata_key : string) :
  row_data self !! rowdata_key = Some coll →
  RowDataCollection.numberOfRows coll <= i →
  addRow Py2 row_vals rowdata_key (Some i) self
  = addRow Py2 row_vals rowdata_key None self.
Proof.
  intros Hcoll Hi. rewrite (addRow_beyond Py2 self coll) by done.
  unfold addRow, mbind, meth_bind, self_, eval, call, subscript.
  rewrite Hcoll. simpl.
  by destruct (RowDataCollection.addRow row_vals None coll).
Qed.

(** Under Python 3 the omitted index never reaches the collection: the
    comparison of [None] with the row count raises [TypeError]. *)
Lemma addRow_default_py3 self coll (row_vals : gmap string Z) (rowdata_key : string) :
  row_data self !! rowdata_key = Some coll →
  addRow Py3 row_vals rowdata_key None self = (self, Raise TypeError).
Proof.
  intros Hcoll. unfold addRow, mbind, meth_bind, self_, eval, subscript.
  by rewrite Hcoll.
Qed.

(** C9 (as the code has it): on a unit whose [row_data] is empty the two
    row accessors return the ordinary value [False] when the unit's
    [has_datarows] flag is false, and raise [KeyError] when it is true. *)
Theorem row_accessors_without_rows self (flag : bool) (key rowdata_key : string) :
  row_data self = ∅ →
  has_datarows self = Some flag →
  rowDataType self key rowdata_key = (if flag then Raise KeyError else Ok VFalse)
  ∧ rowDataTypeAsList self key rowdata_key
    = (if flag then Raise KeyError else Ok VFalse).
Proof.
  intros Hempty Hflag. unfold rowDataType, rowDataTypeAsList, subscript.
  rewrite Hflag, Hempty, lookup_empty. by destruct flag.
Qed.

(** The derived flag of the unit is false exactly when [row_data] is empty. *)
Lemma hasRowData_empty self : hasRowData self = false ↔ row_data self = ∅.
Proof. unfold hasRowData. case_bool_decide; naive_solver. Qed.

End rows.

(** ** Closed instances on the single-column collection *)

Section instances.
Import AIsisUnit.

(** C8: on Python 3, adding a row to a unit of three rows with index 3
    appends it, while the same call with the index left out raises
    [TypeError] and appends nothing. *)
Theorem addRow_default_index :
  RowDataCollection.numberOfRows (C:=Chainage.t) [1; 3; 5] = 3
  ∧ addRow Py3 new_row "main" (Some 3) river
    = (set_row_data {[ "main"%string := [1; 3; 5; 7] ]} river, Ok ())
  ∧ addRow Py3 new_row "main" None river = (river, Raise TypeError).
Proof. repeat split; reflexivity. Qed.

(** On Python 2 the two calls agree on the same unit. *)
Example addRow_default_index_py2 :
  addRow Py2 new_row "main" None river
  = (set_row_data {[ "main"%string := [1; 3; 5; 7] ]} river, Ok ())
  ∧ addRow Py2 new_row "main" (Some 3) river = addRow Py2 new_row "main" None river.
Proof. split; reflexivity. Qed.

Lemma updateRow_valid_index_witness :
  row_data river !! "main"%string = Some [1; 3; 5]
  ∧ 1 < RowDataCollection.numberOfRows (C:=Chainage.t) [1; 3; 5]
  ∧ updateRow Py3 new_row (Some 1) "main" river = (river, Raise NameError).
Proof.
  split; [reflexivity|]. split; [reflexivity|].
  apply (updateRow_valid_index Py3 river [1; 3; 5]); reflexivity.
Defined.

(** The header unit has no rows, and its accessors return [False]. *)
Lemma header_accessors_return_False :
  row_data header = ∅
  ∧ rowDataType header "chainage" "main" = Ok VFalse
  ∧ rowDataTypeAsList header "chainage" "main" = Ok VFalse
  ∧ ¬ (∃ e, rowDataType header "chainage" "main" = Raise e).
Proof. repeat split; try reflexivity. intros [e He]. discriminate He. Qed.

Lemma row_accessors_without_rows_witness :
  row_data header = ∅
  ∧ has_datarows header = Some false
  ∧ rowDataType header "chainage" "main" = Ok VFalse
  ∧ rowDataTypeAsList header "chainage" "main" = Ok VFalse.
Proof.
  split; [reflexivity|]. split; [reflexivity|].
  apply (row_accessors_without_rows header false "chainage" "main"); reflexivity.
Defined.

(** A comment unit carries the flag but no rows: [KeyError]. *)
Example comment_accessors_raise_KeyError :
  rowDataType (CommentUnit.super (comment "")) "chainage" "main" = Raise KeyError
  ∧ rowDataTypeAsList (CommentUnit.super (comment "")) "chainage" "main" = Raise KeyError.
Proof. split; reflexivity. Qed.

(** A unit of the catch-all class never got the flag: [AttributeError]. *)
Example unknown_accessors_raise_AttributeError :
  rowDataType (UnknownUnit.__init__ (C:=Chainage.t) "c0ffee") "chainage" "main"
  = Raise AttributeError.
Proof. reflexivity. Qed.

(** Reading [comment_block] keeps neither the leading nor the trailing
    blanks of a row, so the rows stored are not the rows with only their
    trailing whitespace removed. *)
Lemma comment_read_drops_leading_space :
  int (strip "         2") = Ok 2
  ∧ snd (CommentUnit.readUnitData comment_block 0 (comment "")) = Ok 3
  ∧ CommentUnit.data (fst (CommentUnit.readUnitData comment_block 0 (comment "")))
    = ["first row"; "second row"]%string
  ∧ trailing_stripped ["  first row"; "second row  "]%string
    = ["  first row"; "second row"]%string
  ∧ CommentUnit.data (fst (CommentUnit.readUnitData comment_block 0 (comment "")))
    ≠ trailing_stripped ["  first row"; "second row  "]%string.
Proof. repeat split; try reflexivity. discriminate. Qed.

Lemma comment_read_block_witness :
  0 <= 0
  ∧ getitem comment_block (0 + 1) = Ok "         2"%string
  ∧ int (strip "         2") = Ok (Z.of_nat 2)
  ∧ 0 + 2 + Z.of_nat 2 <= Z.of_nat (length comment_block)
  ∧ CommentUnit.readUnitData comment_block 0 (comment "")
    = (CommentUnit.make (CommentUnit.super (comment ""))
         ["first row"; "second row"]%string (Some 2),
       Ok 3).
Proof.
  split; [lia|]. split; [reflexivity|]. split; [reflexivity|].
  split; [simpl; lia|].
  apply (comment_read_block (comment "") comment_block 0 2 "         2");
    [lia|reflexivity|reflexivity|simpl; lia].
Defined.

Lemma comment_getData_truncates_witness :
  CommentUnit.no_of_rows lowered = Some 1
  ∧ 0 <= 1 < Z.of_nat (length (CommentUnit.data lowered))
  ∧ ∃ output,
      CommentUnit.getData lowered = Ok output
      ∧ output = ["COMMENT   "; "         1"; "a"]%string
      ∧ Z.of_nat (length output) = 1 + 2.
Proof.
  split; [reflexivity|]. split; [simpl; lia|].
  apply (comment_getData_truncates lowered 1); [reflexivity|simpl; lia].
Defined.

End instances.

(** ** HeaderUnit *)

Section header_unit.
Context {C : Type} `{!RowDataCollection.t C}.

Lemma substring_take_drop (s : string) (n m : nat) :
  String.substring n m s = str_of (take m (drop n (chars s))).
Proof.
  revert n m. induction s as [|c s IH]; intros n m.
  - by destruct n, m.
  - destruct n as [|n]; simpl.
    + destruct m as [|m]; simpl; [done|]. f_equal. apply IH.
    + apply IH.
Qed.

Lemma length_chars (s : string) : length (chars s) = String.length s.
Proof. induction s as [|c s IH]; simpl; [done|]. by rewrite IH. Qed.

(** A slice between two columns is the substring that starts at the first
    and has their distance as its length, whatever the length of the line. *)
Lemma substr_columns (s : string) (lo hi : nat) :
  (lo ≤ hi)%nat →
  substr (Some (Z.of_nat lo)) (Some (Z.of_nat hi)) s = String.substring lo (hi - lo) s.
Proof.
  intros Hle. rewrite substring_take_drop. unfold substr, slice, bound. f_equal.
  set (l := chars s).
  destruct (Z.ltb_spec (Z.of_nat lo) 0) as [?|_]; [lia|].
  destruct (Z.ltb_spec (Z.of_nat hi) 0) as [?|_]; [lia|].
  destruct (decide (length l ≤ lo)%nat) as [Hout|Hin].
  - rewrite (drop_ge l lo) by done. rewrite drop_ge by lia. by rewrite !take_nil.
  - rewrite (Z.min_l (Z.of_nat lo)) by lia. rewrite Nat2Z.id.
    destruct (decide (hi ≤ length l)%nat) as [Hhi|Hhi].
    + rewrite Z.min_l by lia. f_equal. lia.
    + rewrite Z.min_r by lia.
      rewrite !take_ge; [done| |]; rewrite length_drop; lia.
Qed.

Lemma substr_prefix (s : string) (hi : nat) :
  substr None (Some (Z.of_nat hi)) s = String.substring 0 (hi - 0) s.
Proof.
  rewrite <- (substr_columns s 0 hi) by lia.
  unfold substr, slice, bound.
  change (Z.of_nat 0 <? 0) with false. cbv iota.
  by rewrite (Z.min_l (Z.of_nat 0)) by lia.
Qed.

(** Six lines are enough for the read to go through; the seventh is
    skipped unread, like the fifth. *)
Lemma header_read_lines (self : AIsisUnit.t C) (l0 l1 l2 l3 l4 l5 : string)
    (rest : list string) (file_line : Z) :
  HeaderUnit.readUnitData (l0 :: l1 :: l2 :: l3 :: l4 :: l5 :: rest) file_line self
  = (AIsisUnit.set_head_data (fields_of l0 l1 l2 l3 l5) self, Ok (file_line + 7)).
Proof.
  set (unit_data := l0 :: l1 :: l2 :: l3 :: l4 :: l5 :: rest).
  assert (H0 : getitem unit_data 0 = Ok l0) by (by apply (getitem_nat _ 0%nat)).
  assert (H1 : getitem unit_data 1 = Ok l1) by (by apply (getitem_nat _ 1%nat)).
  assert (H2 : getitem unit_data 2 = Ok l2) by (by apply (getitem_nat _ 2%nat)).
  assert (H3 : getitem unit_data 3 = Ok l3) by (by apply (getitem_nat _ 3%nat)).
  assert (H5 : getitem unit_data 5 = Ok l5) by (by apply (getitem_nat _ 5%nat)).
  unfold HeaderUnit.readUnitData, HeaderUnit.whole, HeaderUnit.cut.
  rewrite H0, H1, H2, H3, H5. reflexivity.
Qed.

(** Every row of the declared table is answered by the field stored under
    its name. *)
Lemma fields_of_table (l0 l1 l2 l3 l4 l5 : string) (rest : list string) :
  Forall (fun r =>
    ∃ raw v, (l0 :: l1 :: l2 :: l3 :: l4 :: l5 :: rest) !! HeaderLayout.line r = Some raw
             ∧ fields_of l0 l1 l2 l3 l5 !! HeaderLayout.name r = Some v
             ∧ HeaderLayout.describes r raw v) HeaderLayout.table.
Proof.
  unfold HeaderLayout.table.
  repeat (apply Forall_cons; split;
          [eexists _, _; split; [reflexivity|]; split; [reflexivity|];
           eexists; split; [reflexivity|]; simpl;
           repeat split;
           first [ reflexivity
                 | f_equal; apply (substr_prefix _ 10)
                 | f_equal; apply (substr_columns _ 10 20); lia
                 | f_equal; apply (substr_columns _ 20 30); lia
                 | f_equal; apply (substr_columns _ 30 40); lia
                 | f_equal; apply (substr_columns _ 40 50); lia
                 | f_equal; apply (substr_columns _ 50 60); lia
                 | f_equal; apply (substr_columns _ 60 70); lia ]
          |]).
  apply Forall_nil_2.
Qed.

(** C4: given at least seven raw lines, [readUnitData] returns the cursor
    moved on by seven and leaves in [head_data] one typed field for each
    row of the declared table and nothing else: its text is the whole line
    (name, revision, roughness) or the declared columns of the line, with
    the surrounding whitespace removed, and it carries the declared type. *)
Theorem header_readUnitData (self : AIsisUnit.t C) (unit_data : list string)
    (file_line : Z) :
  (7 ≤ length unit_data)%nat →
  ∃ fields : gmap string head_value,
    HeaderUnit.readUnitData unit_data file_line self
    = (AIsisUnit.set_head_data fields self, Ok (file_line + 7))
    ∧ dom fields = list_to_set (HeaderLayout.name <$> HeaderLayout.table)
    ∧ Forall (fun r =>
        ∃ raw v, unit_data !! HeaderLayout.line r = Some raw
                 ∧ fields !! HeaderLayout.name r = Some v
                 ∧ HeaderLayout.describes r raw v) HeaderLayout.table.
Proof.
  intros Hlen.
  destruct unit_data as [|l0 [|l1 [|l2 [|l3 [|l4 [|l5 [|l6 rest]]]]]]];
    simpl in Hlen; try lia.
  exists (fields_of l0 l1 l2 l3 l5). split; [|split].
  - apply header_read_lines.
  - unfold fields_of. rewrite dom_list_to_map_L. reflexivity.
  - apply fields_of_table.
Qed.

(** X24: with fewer than six lines the read fails on a missing line with
    [IndexError] and stores nothing. *)
Lemma header_readUnitData_short (self : AIsisUnit.t C) (unit_data : list string)
    (file_line : Z) :
  (length unit_data < 6)%nat →
  HeaderUnit.readUnitData unit_data file_line self = (self, Raise IndexError).
Proof.
  intros Hlen.
  destruct unit_data as [|l0 [|l1 [|l2 [|l3 [|l4 [|l5 rest]]]]]];
    simpl in Hlen; try lia; reflexivity.
Qed.

(** [getData] joins what the formatter gives for the fifteen fields of
    [key_order], splits the result at line breaks, and closes with the
    three trailer lines. *)
Lemma header_getData_shape `{!HeadDataItem.formatter} (self : AIsisUnit.t C)
    (out : list string) (roughness : string) :
  HeaderUnit.format_each self HeaderUnit.key_order [] = Ok out →
  HeaderUnit.format_field self "roughness" None = Ok roughness →
  HeaderUnit.getData self
  = Ok (split newline (String.concat "" out)
          ++ ["RAD FILE"; roughness; "END GENERAL"]%string).
Proof.
  intros Hout Hrough. unfold HeaderUnit.getData. rewrite Hout. simpl.
  rewrite Hrough. simpl. by rewrite <- !app_assoc.
Qed.

(** X29: whatever the formatter of the fields does, writing a header that
    has been read returns at least four lines and ends with the three
    trailer lines, the middle one being the formatted roughness field. *)
Lemma header_getData_trailer `{!HeadDataItem.formatter} (self : AIsisUnit.t C)
    (unit_data : list string) (file_line : Z) :
  (6 ≤ length unit_data)%nat →
  ∃ (body : list string) (roughness : HeadDataItem.t),
    AIsisUnit.head_data (fst (HeaderUnit.readUnitData unit_data file_line self))
      !! "roughness"%string = Some (Item roughness)
    ∧ HeaderUnit.getData (fst (HeaderUnit.readUnitData unit_data file_line self))
      = Ok (body ++ ["RAD FILE"; HeadDataItem.format roughness None; "END GENERAL"]%string)
    ∧ body ≠ [].
Proof.
  intros Hlen.
  destruct unit_data as [|l0 [|l1 [|l2 [|l3 [|l4 [|l5 rest]]]]]];
    simpl in Hlen; try lia.
  rewrite header_read_lines. simpl fst. unfold fields_of.
  repeat match goal with
         | |- context [Item (HeadDataItem.make ?a ?b ?c ?d ?e ?f)] =>
             generalize (HeadDataItem.make a b c d e f); intro
         end.
  eexists _, _. split; [vm_compute; reflexivity|]. split.
  - eapply header_getData_shape; vm_compute; reflexivity.
  - apply split_nonempty.
Qed.

End header_unit.

Lemma header_readUnitData_witness :
  (7 ≤ length header_block)%nat
  ∧ ∃ fields : gmap string head_value,
      HeaderUnit.readUnitData header_block 0 header
      = (AIsisUnit.set_head_data fields header, Ok (0 + 7))
      ∧ dom fields = list_to_set (HeaderLayout.name <$> HeaderLayout.table)
      ∧ Forall (fun r =>
          ∃ raw v, header_block !! HeaderLayout.line r = Some raw
                   ∧ fields !! HeaderLayout.name r = Some v
                   ∧ HeaderLayout.describes r raw v) HeaderLayout.table.
Proof.
  split; [simpl; lia|].
  apply (header_readUnitData header header_block 0). simpl; lia.
Defined.

(** Three of the fields read from [header_block]. *)
Example header_block_fields :
  let after := fst (HeaderUnit.readUnitData header_block 0 header) in
  AIsisUnit.head_data after !! "node_count"%string
  = Some (Item (HeadDataItem.make "12" "{:>10}" 2 0 DATA_TYPES.INT None))
  ∧ AIsisUnit.head_data after !! "fr_lower"%string
    = Some (Item (HeadDataItem.make "0.750" "{:>10}" 2 1 DATA_TYPES.FLOAT (Some 3)))
  ∧ AIsisUnit.head_data after !! "dummy"%string
    = Some (Item (HeadDataItem.make "0.000" "{:>10}" 3 6 DATA_TYPES.FLOAT (Some 3)))
  ∧ AIsisUnit.head_data after !! "name"%string
    = Some (Item (HeadDataItem.make "Example model" "" 0 0 DATA_TYPES.STRING None)).
Proof. repeat split; reflexivity. Qed.

(** * Further properties *)

(** ** Built-ins: whitespace *)

Lemma lstrip_spaces (k : nat) (s : string) : lstrip (spaces k +:+ s) = lstrip s.
Proof. induction k as [|k IH]; simpl; [done|exact IH]. Qed.

Lemma lstrip_head (c : ascii) (s : string) :
  isspace c = false → lstrip (String c s) = String c s.
Proof. intros Hc. simpl. by rewrite Hc. Qed.

(** What [lstrip] returns is empty or starts with a character that is not
    whitespace. *)
Lemma lstrip_starts (s : string) :
  lstrip s = EmptyString ∨ ∃ c r, lstrip s = String c r ∧ isspace c = false.
Proof.
  induction s as [|c s IH]; simpl; [by left|].
  destruct (isspace c) eqn:Hc; [exact IH|]. right. by exists c, s.
Qed.

Lemma rstrip_head (c : ascii) (s : string) :
  isspace c = false → ∃ r, rstrip (String c s) = String c r.
Proof.
  intros Hc. simpl. destruct (rstrip s) as [|c' r'].
  - rewrite Hc. by eexists.
  - by eexists.
Qed.

Lemma rstrip_cons (c : ascii) (s : string) :
  rstrip (String c s)
  = match rstrip s with
    | EmptyString => if isspace c then EmptyString else String c EmptyString
    | r => String c r
    end.
Proof. reflexivity. Qed.

Lemma rstrip_idem (s : string) : rstrip (rstrip s) = rstrip s.
Proof.
  induction s as [|c s IH]; [done|].
  rewrite (rstrip_cons c s). destruct (rstrip s) as [|c' r'] eqn:Hr.
  - destruct (isspace c) eqn:Hc; [done|]. rewrite rstrip_cons. simpl. by rewrite Hc.
  - rewrite rstrip_cons, IH. reflexivity.
Qed.

(** [strip] is idempotent. *)
Lemma strip_idem (s : string) : strip (strip s) = strip s.
Proof.
  unfold strip. destruct (lstrip_starts s) as [->|(c & r & -> & Hc)]; [done|].
  destruct (rstrip_head c r Hc) as [r' Hr]. rewrite Hr.
  rewrite (lstrip_head c r' Hc), <- Hr. apply rstrip_idem.
Qed.

(** A string without any whitespace is left alone. *)
Lemma rstrip_solid (s : string) :
  Forall (fun c => isspace c = false) (chars s) → rstrip s = s.
Proof.
  induction s as [|c s IH]; simpl; [done|].
  intros Hall. apply Forall_cons in Hall as [Hc Hs].
  rewrite (IH Hs). destruct s; [by rewrite Hc|done].
Qed.

Lemma strip_padded (k : nat) (s : string) :
  Forall (fun c => isspace c = false) (chars s) → strip (spaces k +:+ s) = s.
Proof.
  intros Hall. unfold strip. rewrite lstrip_spaces.
  destruct s as [|c s]; [done|].
  pose proof Hall as Hall'. apply Forall_cons in Hall' as [Hc _].
  rewrite (lstrip_head c s Hc). by apply rstrip_solid.
Qed.

Lemma strip_solid (s : string) :
  Forall (fun c => isspace c = false) (chars s) → strip s = s.
Proof. apply (strip_padded 0 s). Qed.

(** Stripping only removes characters. *)
Lemma lstrip_chars (s : string) (c : ascii) : c ∈ chars (lstrip s) → c ∈ chars s.
Proof.
  induction s as [|c' s IH]; simpl; [done|].
  destruct (isspace c'); [|done]. intros Hin. apply list_elem_of_further. auto.
Qed.

Lemma rstrip_chars (s : string) (c : ascii) : c ∈ chars (rstrip s) → c ∈ chars s.
Proof.
  induction s as [|c' s IH]; simpl; [done|].
  destruct (rstrip s) as [|c'' r] eqn:Hr.
  - destruct (isspace c'); simpl; [by intros ?%elem_of_nil|].
    intros ->%list_elem_of_singleton. apply list_elem_of_here.
  - simpl. intros [->|Hin]%elem_of_cons; [apply list_elem_of_here|].
    apply list_elem_of_further. auto.
Qed.

Lemma strip_chars (s : string) (c : ascii) : c ∈ chars (strip s) → c ∈ chars s.
Proof. intros Hin. by apply lstrip_chars, rstrip_chars. Qed.

Lemma lstrip_length (s : string) : (String.length (lstrip s) ≤ String.length s)%nat.
Proof. induction s as [|c s IH]; simpl; [done|]. destruct (isspace c); simpl; lia. Qed.

Lemma rstrip_length (s : string) : (String.length (rstrip s) ≤ String.length s)%nat.
Proof.
  induction s as [|c s IH]; simpl; [done|].
  destruct (rstrip s); [destruct (isspace c)|]; simpl in *; lia.
Qed.

Lemma strip_length (s : string) : (String.length (strip s) ≤ String.length s)%nat.
Proof.
  unfold strip. etransitivity; [apply rstrip_length|apply lstrip_length].
Qed.

(** No piece of a split holds the separator. *)
Lemma split_pieces (sep : ascii) (s : string) :
  Forall (fun piece => sep ∉ chars piece) (split sep s).
Proof.
  induction s as [|c s IH]; simpl.
  - apply Forall_singleton. by intros ?%elem_of_nil.
  - destruct (Ascii.eqb_spec c sep) as [->|Hne].
    + apply Forall_cons. split; [by intros ?%elem_of_nil|done].
    + destruct (split sep s) as [|h t] eqn:Hsplit;
        [by apply split_nonempty in Hsplit|].
      apply Forall_cons in IH as [Hh Ht]. apply Forall_cons. split; [|done].
      simpl. intros [?|?]%elem_of_cons; [by subst|done].
Qed.

(** ** Built-ins: integers and their decimal text *)

Lemma digits_digit (c : ascii) (s : string) (acc : Z) (b : bool) :
  isdigit c = true → digits (String c s) acc b = digits s (10 * acc + digit_val c) true.
Proof. intros Hc. simpl. by rewrite Hc. Qed.

Ltac digit_step :=
  rewrite digits_digit by reflexivity;
  match goal with
  | |- context [digit_val ?c] =>
      let v := eval vm_compute in (digit_val c) in change (digit_val c) with v
  end.

Lemma digits_uint_acc (d : Decimal.uint) (p : positive) :
  digits (NilEmpty.string_of_uint d) (Z.pos p) true
  = Some (Z.pos (Pos.of_uint_acc d p)).
Proof.
  revert p. induction d as [|d IH|d IH|d IH|d IH|d IH|d IH|d IH|d IH|d IH|d IH];
    intros p; cbn [NilEmpty.string_of_uint Pos.of_uint_acc]; [done|..];
    digit_step;
    match goal with
    | |- digits _ ?acc true = Some (Z.pos (Pos.of_uint_acc _ ?q)) =>
        replace acc with (Z.pos q) by lia
    end; apply IH.
Qed.

Lemma digits_uint (d : Decimal.uint) (b : bool) :
  d ≠ Decimal.Nil ∨ b = true →
  digits (NilEmpty.string_of_uint d) 0 b = Some (Z.of_N (Pos.of_uint d)).
Proof.
  revert b. induction d as [|d IH|d IH|d IH|d IH|d IH|d IH|d IH|d IH|d IH|d IH];
    intros b Hb; cbn [NilEmpty.string_of_uint Pos.of_uint].
  - destruct Hb as [?| ->]; done.
  - digit_step. apply IH. by right.
  - digit_step. apply (digits_uint_acc d 1).
  - digit_step. apply (digits_uint_acc d 2).
  - digit_step. apply (digits_uint_acc d 3).
  - digit_step. apply (digits_uint_acc d 4).
  - digit_step. apply (digits_uint_acc d 5).
  - digit_step. apply (digits_uint_acc d 6).
  - digit_step. apply (digits_uint_acc d 7).
  - digit_step. apply (digits_uint_acc d 8).
  - digit_step. apply (digits_uint_acc d 9).
Qed.

Lemma uint_solid (d : Decimal.uint) :
  Forall (fun c => isspace c = false) (chars (NilEmpty.string_of_uint d)).
Proof.
  induction d; simpl; [by apply Forall_nil|..]; by apply Forall_cons.
Qed.

(** The decimal text of an integer holds no whitespace. *)
Lemma str_solid (n : Z) : Forall (fun c => isspace c = false) (chars (str n)).
Proof.
  unfold str. destruct n as [|p|p]; simpl.
  - by apply Forall_singleton.
  - destruct (Pos.to_uint p) eqn:Hd; try apply (uint_solid (_ u)).
    by apply Forall_singleton.
  - apply Forall_cons. split; [done|].
    destruct (Pos.to_uint p) eqn:Hd; try apply (uint_solid (_ u)).
    by apply Forall_singleton.
Qed.

Lemma nilzero_solid (d : Decimal.uint) :
  Forall (fun c => isspace c = false) (chars (NilZero.string_of_uint d)).
Proof.
  destruct d; try apply (uint_solid (_ d)). by apply Forall_singleton.
Qed.

(** The sign test of [int] lets a digit string through to [digits]. *)
Lemma int_uint (d : Decimal.uint) :
  d ≠ Decimal.Nil → int (NilZero.string_of_uint d) = Ok (Z.of_N (Pos.of_uint d)).
Proof.
  intros Hd. unfold int. rewrite (strip_solid _ (nilzero_solid d)).
  destruct d as [|d|d|d|d|d|d|d|d|d|d]; [done|..];
    match goal with
    | |- context [NilZero.string_of_uint ?u] =>
        change (match digits (NilEmpty.string_of_uint u) 0 false with
                | Some n => Ok n
                | None => Raise ValueError
                end = Ok (Z.of_N (Pos.of_uint u)));
        by rewrite (digits_uint u false) by (by left)
    end.
Qed.

Lemma int_minus_uint (d : Decimal.uint) :
  d ≠ Decimal.Nil →
  int (String "-" (NilZero.string_of_uint d)) = Ok (- Z.of_N (Pos.of_uint d)).
Proof.
  intros Hd. unfold int.
  rewrite (strip_solid (String "-" _));
    [|apply Forall_cons; split; [done|apply nilzero_solid]].
  destruct d as [|d|d|d|d|d|d|d|d|d|d]; [done|..];
    match goal with
    | |- context [NilZero.string_of_uint ?u] =>
        change (match Z.opp <$> digits (NilEmpty.string_of_uint u) 0 false with
                | Some n => Ok n
                | None => Raise ValueError
                end = Ok (- Z.of_N (Pos.of_uint u)));
        by rewrite (digits_uint u false) by (by left)
    end.
Qed.

(** [int] reads back what [str] prints. *)
Lemma int_str (n : Z) : int (str n) = Ok n.
Proof.
  unfold str. destruct n as [|p|p]; [done|..]; cbn [Z.to_int NilZero.string_of_int].
  - rewrite (int_uint _ (DecimalPos.Unsigned.to_uint_nonnil p)).
    by rewrite DecimalPos.Unsigned.of_to.
  - rewrite (int_minus_uint _ (DecimalPos.Unsigned.to_uint_nonnil p)).
    by rewrite DecimalPos.Unsigned.of_to.
Qed.

(** The count line that [getData] writes is read back as the count. *)
Lemma int_count_line (w : nat) (n : Z) : int (strip (format_right w (str n))) = Ok n.
Proof.
  unfold format_right. rewrite (strip_padded _ _ (str_solid n)). apply int_str.
Qed.

(** ** CommentUnit, continued *)

Section comment_unit_more.
Context {C : Type} `{!RowDataCollection.t C}.
Implicit Types (self u v : CommentUnit.t C).

(** With a count that is not negative, [getData] writes the tag, the count
    and the first [count] lines held, or all of them if there are fewer. *)
Lemma getData_take self (count : Z) :
  CommentUnit.no_of_rows self = Some count →
  0 <= count →
  CommentUnit.getData self
  = Ok (format_left 10 "COMMENT" :: format_right 10 (str count)
          :: take (Z.to_nat count) (CommentUnit.data self)).
Proof.
  intros Hn Hcount. unfold CommentUnit.getData. rewrite Hn. simpl.
  rewrite append_each. simpl.
  destruct (Z.ltb_spec (count + 2)
              (Z.of_nat (S (S (length (CommentUnit.data self)))))) as [Hlt|Hge].
  - unfold slice, bound. simpl length.
    destruct (Z.ltb_spec (count + 2) 0) as [?|_]; [lia|].
    rewrite Z.min_l by lia. rewrite Z.sub_0_r. simpl drop.
    replace (Z.to_nat (count + 2)) with (S (S (Z.to_nat count))) by lia.
    reflexivity.
  - rewrite take_ge by lia. reflexivity.
Qed.

(** The loop of [readUnitData] from line [k] on: it appends the rows that
    are there, up to [n] of them, and fails once it runs out of lines. *)
Lemma read_rows_from self (lines : list string) (n k : nat) :
  (k ≤ length lines)%nat →
  CommentUnit.read_rows lines n (Z.of_nat k) self
  = (CommentUnit.make (CommentUnit.super self)
       (CommentUnit.data self ++ (strip <$> take n (drop k lines)))
       (CommentUnit.no_of_rows self),
     if decide (k + n ≤ length lines)%nat then Ok (Z.of_nat (k + n))
     else Raise IndexError).
Proof.
  revert self k. induction n as [|n IH]; intros self k Hk.
  - simpl. rewrite app_nil_r, Nat.add_0_r.
    destruct (decide (k ≤ length lines)%nat); [|lia]. by destruct self.
  - cbn [CommentUnit.read_rows]. unfold mbind, meth_bind, eval, assign.
    destruct (lines !! k) as [l|] eqn:Hl.
    + pose proof (lookup_lt_Some _ _ _ Hl) as Hlt.
      rewrite (getitem_nat _ _ _ Hl).
      replace (Z.of_nat k + 1) with (Z.of_nat (S k)) by lia.
      rewrite IH by lia. simpl.
      rewrite (drop_S _ l k Hl). simpl. rewrite <- app_assoc. simpl.
      f_equal. replace (k + S n)%nat with (S (k + n)) by lia. reflexivity.
    + pose proof (lookup_ge_None_1 _ _ Hl) as Hge.
      rewrite getitem_beyond by lia.
      rewrite drop_ge by lia. simpl. rewrite app_nil_r.
      destruct (decide (k + S n ≤ length lines)%nat); [lia|]. by destruct self.
Qed.

(** [readUnitData] from a cursor that is not negative, once the count line
    is there and reads as [count]: the count is stored, the rows that
    follow are appended stripped, up to [count] of them, and the call fails
    with [IndexError] if they are fewer. *)
Lemma readUnitData_from self (lines : list string) (k : nat) (count : Z)
    (count_line : string) :
  lines !! S k = Some count_line →
  int (strip count_line) = Ok count →
  CommentUnit.readUnitData lines (Z.of_nat k) self
  = (CommentUnit.make (CommentUnit.super self)
       (CommentUnit.data self
          ++ (strip <$> take (Z.to_nat count) (drop (S (S k)) lines)))
       (Some count),
     if decide (S (S k) + Z.to_nat count ≤ length lines)%nat
     then Ok (Z.of_nat (S k + Z.to_nat count))
     else Raise IndexError).
Proof.
  intros Hcount Hint. pose proof (lookup_lt_Some _ _ _ Hcount) as Hlt.
  unfold CommentUnit.readUnitData. unfold mbind at 1 2 3 4 5.
  unfold meth_bind, eval, assign.
  replace (Z.of_nat k + 1) with (Z.of_nat (S k)) by lia.
  rewrite (getitem_nat _ _ _ Hcount), Hint.
  replace (Z.of_nat (S k) + 1) with (Z.of_nat (S (S k))) by lia.
  unfold range_len.
  replace (Z.to_nat (Z.of_nat (S (S k)) + count - Z.of_nat (S (S k))))
    with (Z.to_nat count) by lia.
  rewrite read_rows_from by lia. simpl.
  destruct (decide (S (S (k + Z.to_nat count)) ≤ length lines)%nat); [|done].
  unfold mret, meth_ret. do 2 f_equal. lia.
Qed.

Lemma fmap_strip_clean (rows : list string) :
  Forall (fun l => strip l = l) rows → strip <$> rows = rows.
Proof.
  induction 1 as [|l rows Hl _ IH]; [done|]. rewrite fmap_cons. congruence.
Qed.

(** X2: [addCommentText] always leaves the stored count equal to the
    number of lines held, whatever the count was before, and it adds at
    least one line, even for the empty text. *)
Theorem comment_addCommentText_resyncs (text : string) self :
  CommentUnit.no_of_rows (CommentUnit.addCommentText text self)
  = Some (Z.of_nat (length (CommentUnit.data (CommentUnit.addCommentText text self))))
  ∧ (length (CommentUnit.data self)
     < length (CommentUnit.data (CommentUnit.addCommentText text self)))%nat
  ∧ CommentUnit.data self `prefix_of` CommentUnit.data (CommentUnit.addCommentText text self).
Proof.
  rewrite addCommentText_eq. simpl. split; [done|]. split.
  - rewrite length_app, length_fmap.
    pose proof (split_nonempty newline text) as Hne.
    destruct (split newline text); [done|]. simpl. lia.
  - by eexists.
Qed.

(** X3: a line that [addCommentText] stores holds no line break and has no
    whitespace at either end. *)
Theorem comment_lines_clean (text : string) self :
  Forall (fun l => strip l = l ∧ newline ∉ chars l)
    (drop (length (CommentUnit.data self))
       (CommentUnit.data (CommentUnit.addCommentText text self))).
Proof.
  rewrite addCommentText_eq. simpl. rewrite drop_app_length.
  apply Forall_fmap. eapply Forall_impl; [apply (split_pieces newline text)|].
  intros piece Hpiece. simpl. split; [apply strip_idem|].
  intros Hin. by apply Hpiece, strip_chars.
Qed.

(** X4: write, then read.  When the count agrees with the lines held and
    no line has whitespace at its ends, reading the output of [getData]
    from cursor 0 into a comment unit that holds no lines yet restores the
    lines and the count, and returns the index of the last line. *)
Theorem comment_write_then_read u v :
  CommentUnit.no_of_rows u = Some (Z.of_nat (length (CommentUnit.data u))) →
  Forall (fun l => strip l = l) (CommentUnit.data u) →
  CommentUnit.data v = [] →
  ∃ output,
    CommentUnit.getData u = Ok output
    ∧ CommentUnit.readUnitData output 0 v
      = (CommentUnit.make (CommentUnit.super v) (CommentUnit.data u)
           (CommentUnit.no_of_rows u),
         Ok (Z.of_nat (length (CommentUnit.data u)) + 1)).
Proof.
  intros Hcount Hclean Hempty. eexists. split.
  - by apply getData_in_step.
  - rewrite (readUnitData_from v _ 0 (Z.of_nat (length (CommentUnit.data u)))
               (format_right 10 (str (Z.of_nat (length (CommentUnit.data u))))));
      [|done|apply int_count_line].
    rewrite Hempty, Hcount, Nat2Z.id. cbn [drop length app Nat.add].
    rewrite drop_0, firstn_all. rewrite (fmap_strip_clean _ Hclean).
    destruct (decide (S (S (length (CommentUnit.data u)))
                      ≤ S (S (length (CommentUnit.data u))))%nat); [|lia].
    do 2 f_equal. lia.
Qed.

(** X5: read, then write.  Reading a well-formed block into a comment unit
    that holds no lines yet and writing it gives the block in normal form:
    the tag line is [COMMENT] padded to ten characters whatever the tag
    line read was, the count is right-justified, and the rows are
    stripped; lines before and after the block play no part. *)
Theorem comment_read_then_write v (pre body post : list string) (tag count : string) :
  CommentUnit.data v = [] →
  int (strip count) = Ok (Z.of_nat (length body)) →
  CommentUnit.getData
    (fst (CommentUnit.readUnitData (pre ++ tag :: count :: body ++ post)
            (Z.of_nat (length pre)) v))
  = Ok ("COMMENT   "%string :: format_right 10 (str (Z.of_nat (length body)))
          :: (strip <$> body)).
Proof.
  intros Hempty Hcount. rewrite readUnitData_block by done. simpl fst.
  rewrite Hempty. simpl app.
  erewrite getData_in_step; [done|done|]. simpl. by rewrite length_fmap.
Qed.

(** X6: [readUnitData] counts only the rows it reads.  Read into a unit
    that already holds lines, the block sets the count to its own [N]
    while the lines pile up behind the old ones, so [getData] then writes
    the first [N] of the old and new lines together and drops the rest. *)
Theorem comment_read_into_used_unit u (pre body post : list string)
    (tag count : string) :
  int (strip count) = Ok (Z.of_nat (length body)) →
  CommentUnit.getData
    (fst (CommentUnit.readUnitData (pre ++ tag :: count :: body ++ post)
            (Z.of_nat (length pre)) u))
  = Ok ("COMMENT   "%string :: format_right 10 (str (Z.of_nat (length body)))
          :: take (length body) (CommentUnit.data u ++ (strip <$> body))).
Proof.
  intros Hcount. rewrite readUnitData_block by done. simpl fst.
  erewrite getData_take; [|done|lia]. simpl. by rewrite Nat2Z.id.
Qed.

(** X7: a block cut short.  When the count line asks for more rows than
    there are lines left, [readUnitData] raises [IndexError], but not
    before it has stored the count and appended the rows that were there. *)
Theorem comment_read_short u (pre body : list string) (tag count : string) (N : nat) :
  int (strip count) = Ok (Z.of_nat N) →
  (length body < N)%nat →
  CommentUnit.readUnitData (pre ++ tag :: count :: body) (Z.of_nat (length pre)) u
  = (CommentUnit.make (CommentUnit.super u)
       (CommentUnit.data u ++ (strip <$> body)) (Some (Z.of_nat N)),
     Raise IndexError).
Proof.
  intros Hcount Hshort.
  rewrite (readUnitData_from u _ (length pre) (Z.of_nat N) count);
    [|by rewrite lookup_app_r, Nat.sub_succ_l, Nat.sub_diag by lia|done].
  rewrite Nat2Z.id.
  replace (drop (S (S (length pre))) (pre ++ tag :: count :: body)) with body.
  2:{ rewrite drop_app_ge by lia.
      by replace (S (S (length pre)) - length pre)%nat with 2%nat by lia. }
  rewrite take_ge by lia.
  destruct (decide (S (S (length pre)) + N ≤ length (pre ++ tag :: count :: body))%nat)
    as [Hle|_]; [|done].
  rewrite length_app in Hle. simpl in Hle. lia.
Qed.

(** X8: when the line after the cursor is missing, or is no integer, the
    read raises what the lookup or [int] raised and the unit is as it
    was. *)
Theorem comment_read_bad_count u (lines : list string) (cursor : Z) (e : exn) :
  (getitem lines (cursor + 1) ≫= fun l => int (strip l)) = Raise e →
  CommentUnit.readUnitData lines cursor u = (u, Raise e).
Proof.
  intros Hbad. unfold CommentUnit.readUnitData, mbind, meth_bind, eval.
  unfold mbind, result_bind in Hbad.
  destruct (getitem lines (cursor + 1)) as [l|e']; [|by injection Hbad as ->].
  by rewrite Hbad.
Qed.

(** X9: a negative count reads no row: the count is stored as it is, the
    lines held stay, and the cursor returned is that of the count line. *)
Theorem comment_read_negative_count u (pre post : list string) (tag count : string)
    (N : Z) :
  int (strip count) = Ok N →
  N < 0 →
  CommentUnit.readUnitData (pre ++ tag :: count :: post) (Z.of_nat (length pre)) u
  = (CommentUnit.make (CommentUnit.super u) (CommentUnit.data u) (Some N),
     Ok (Z.of_nat (length pre) + 1)).
Proof.
  intros Hcount Hneg.
  rewrite (readUnitData_from u _ (length pre) N count);
    [|by rewrite lookup_app_r, Nat.sub_succ_l, Nat.sub_diag by lia|done].
  replace (Z.to_nat N) with 0%nat by lia. simpl take. simpl fmap.
  rewrite app_nil_r.
  destruct (decide (S (S (length pre)) + 0 ≤ length (pre ++ tag :: count :: post))%nat)
    as [_|Hgt].
  - do 2 f_equal. lia.
  - rewrite length_app in Hgt. simpl in Hgt. lia.
Qed.

(** X10: whatever the stored count is, [getData] writes a prefix of the tag
    line, the count line and the lines held, in that order: it never
    changes a line, reorders lines or writes more than it holds. *)
Theorem comment_getData_prefix u (count : Z) :
  CommentUnit.no_of_rows u = Some count →
  ∃ output,
    CommentUnit.getData u = Ok output
    ∧ output `prefix_of` ("COMMENT   "%string :: format_right 10 (str count)
                           :: CommentUnit.data u).
Proof.
  intros Hn. unfold CommentUnit.getData. rewrite Hn. simpl.
  rewrite append_each. simpl. eexists. split; [done|].
  destruct (count + 2 <? _); [|done].
  unfold slice. simpl bound. rewrite Z.sub_0_r. simpl drop.
  apply prefix_take.
Qed.

(** X11: the constructor adds its text unless the text is blank.  With
    blank text, whitespace included, nothing is stored and [getData]
    raises [AttributeError]; with any other text [getData] returns the tag,
    the number of lines of the text and those lines stripped. *)
Theorem comment_init_text (token text : string) :
  CommentUnit.getData (CommentUnit.__init__ (C:=C) token text)
  = if String.eqb (strip text) "" then Raise AttributeError
    else Ok ("COMMENT   "%string
               :: format_right 10 (str (Z.of_nat (length (lines_of [text]))))
               :: lines_of [text]).
Proof.
  destruct (String.eqb_spec (strip text) "") as [Hblank|Hne].
  - unfold CommentUnit.__init__. rewrite Hblank. reflexivity.
  - rewrite init_with_text by done. by apply (getData_add_all token [text]).
Qed.

End comment_unit_more.

(** ** UnknownUnit *)

Section unknown_unit.
Context {C : Type} `{!RowDataCollection.t C}.
Implicit Types (self : AIsisUnit.t C).

(** X1: what the catch-all unit is given it gives back.  After
    [readUnitData], [getData] returns the very lines that were read, also
    when an earlier read had stored other lines; the read changes nothing
    but the entry ['all'] of [head_data]. *)
Theorem unknown_round_trip self (earlier data : list string) :
  UnknownUnit.getData (fst (UnknownUnit.readUnitData data self)) = Ok (Lines data)
  ∧ UnknownUnit.getData
      (fst (UnknownUnit.readUnitData data (fst (UnknownUnit.readUnitData earlier self))))
    = Ok (Lines data)
  ∧ (∀ k, k ≠ "all"%string →
       AIsisUnit.head_data (fst (UnknownUnit.readUnitData data self)) !! k
       = AIsisUnit.head_data self !! k)
  ∧ AIsisUnit.row_data (fst (UnknownUnit.readUnitData data self))
    = AIsisUnit.row_data self.
Proof.
  unfold UnknownUnit.getData, UnknownUnit.readUnitData, assign, subscript. simpl.
  rewrite !lookup_insert_eq. repeat split.
  intros k Hk. by rewrite lookup_insert_ne.
Qed.

End unknown_unit.

(** ** AIsisUnit, continued *)

Section rows_more.
Context {C : Type} `{!RowDataCollection.t C}.
Implicit Types (self : AIsisUnit.t C) (coll : C).
Import AIsisUnit.

(** The loop of [rowDataTypeAsList] gathers the values from position [k]
    on, in order. *)
Lemma collect_from (col : list Z) (n k : nat) (vals : list Z) :
  (k + n ≤ length col)%nat →
  collect (DataObject.make col) n (Z.of_nat k) vals
  = Ok (vals ++ take n (drop k col)).
Proof.
  revert k vals. induction n as [|n IH]; intros k vals Hlen.
  - simpl. by rewrite app_nil_r.
  - cbn [collect]. unfold DataObject.getValue. simpl DataObject.data_collection.
    destruct (lookup_lt_is_Some_2 col k) as [v Hv]; [lia|].
    rewrite (getitem_nat _ _ _ Hv). simpl.
    replace (Z.of_nat k + 1) with (Z.of_nat (S k)) by lia.
    rewrite IH by lia. rewrite (drop_S _ v k Hv). simpl.
    by rewrite <- app_assoc.
Qed.

(** X12: on a unit flagged as having rows, [rowDataType] returns the
    column that the collection holds under the key, and
    [rowDataTypeAsList] returns every value of that column, in row order. *)
Theorem rowDataTypeAsList_all_values self coll (key rowdata_key : string)
    (column : DataObject.t) :
  has_datarows self = Some true →
  row_data self !! rowdata_key = Some coll →
  RowDataCollection.getDataObject coll key = Ok column →
  rowDataType self key rowdata_key = Ok (VDataObject column)
  ∧ rowDataTypeAsList self key rowdata_key
    = Ok (VList (DataObject.data_collection column)).
Proof.
  intros Hflag Hcoll Hcol. unfold rowDataType, rowDataTypeAsList, subscript.
  rewrite Hflag, Hcoll. simpl. rewrite Hcol. simpl. split; [done|].
  destruct column as [col]. unfold range_len, DataObject.record_length.
  cbn [DataObject.data_collection].
  rewrite Z.sub_0_r, Nat2Z.id.
  change 0 with (Z.of_nat 0) at 1.
  rewrite (collect_from col (length col) 0 []) by lia.
  rewrite drop_0, firstn_all. reflexivity.
Qed.

(** X13: on a unit flagged as having rows, a collection key that
    [row_data] does not hold, or a column key that the collection rejects
    with [KeyError], makes both accessors raise [KeyError]. *)
Theorem row_accessors_unknown_key self (key rowdata_key : string) :
  has_datarows self = Some true →
  (subscript (row_data self) rowdata_key
     ≫= fun coll => RowDataCollection.getDataObject coll key) = Raise KeyError →
  rowDataType self key rowdata_key = Raise KeyError
  ∧ rowDataTypeAsList self key rowdata_key = Raise KeyError.
Proof.
  intros Hflag Hkey. unfold rowDataType, rowDataTypeAsList.
  rewrite Hflag. simpl. unfold mbind, result_bind in *.
  destruct (subscript (row_data self) rowdata_key) as [coll|e].
  - by rewrite Hkey.
  - by injection Hkey as ->.
Qed.

(** X14: [addRow] and [deleteRow] touch nothing but the collection they
    name: every other entry of [row_data], the set of collection keys and
    all other attributes of the unit are what they were, whether the call
    returns or raises. *)
Theorem row_updates_frame (py : version) self (row_vals : gmap string Z)
    (rowdata_key : string) (index : option Z) (i : Z) :
  Forall (fun after : t C =>
      (∀ k, k ≠ rowdata_key → row_data after !! k = row_data self !! k)
      ∧ dom (row_data after) = dom (row_data self)
      ∧ head_data after = head_data self
      ∧ has_datarows after = has_datarows self
      ∧ (_name after, _name_ds after, _unit_type after, _unit_category after)
        = (_name self, _name_ds self, _unit_type self, _unit_category self))
    [fst (addRow py row_vals rowdata_key index self);
     fst (deleteRow i rowdata_key self)].
Proof.
  assert (Hkeep : ∀ coll',
            is_Some (row_data self !! rowdata_key) →
            dom (<[rowdata_key := coll']> (row_data self)) = dom (row_data self)).
  { intros coll' Hin. rewrite dom_insert_L.
    apply subseteq_union_1_L, singleton_subseteq_l. by apply elem_of_dom. }
  apply Forall_cons. split; [|apply Forall_singleton].
  - unfold addRow, mbind, meth_bind, self_, eval, call, subscript.
    destruct (row_data self !! rowdata_key) as [coll|] eqn:Hcoll; [|done].
    destruct (ge py index (RowDataCollection.numberOfRows coll)) as [beyond|e];
      [|done].
    destruct (RowDataCollection.addRow row_vals _ coll) as [coll' r]. simpl.
    repeat split; [|by apply Hkeep].
    intros k Hk. by rewrite lookup_insert_ne.
  - unfold deleteRow, mbind, meth_bind, self_, eval, call, subscript.
    destruct (i <? 0); [done|].
    destruct (row_data self !! rowdata_key) as [coll|] eqn:Hcoll; [|done]. simpl.
    destruct (RowDataCollection.numberOfRows coll <=? i); [done|].
    destruct (RowDataCollection.deleteRow i coll) as [coll' r]. simpl.
    repeat split; [|by apply Hkeep].
    intros k Hk. by rewrite lookup_insert_ne.
Qed.


(** X16: a collection key that [row_data] does not hold.  [addRow],
    [updateRow] and [row] raise [KeyError], on both interpreter lines and
    before the index is looked at; [deleteRow] tests the sign of the index
    first, so it raises [IndexError] for a negative index and [KeyError]
    otherwise.  The unit is left as it was. *)
Theorem missing_collection (py : version) self (row_vals : gmap string Z)
    (rowdata_key : string) (index : option Z) (i : Z) :
  row_data self !! rowdata_key = None →
  addRow py row_vals rowdata_key index self = (self, Raise KeyError)
  ∧ updateRow py row_vals index rowdata_key self = (self, Raise KeyError)
  ∧ row self i rowdata_key = Raise KeyError
  ∧ deleteRow i rowdata_key self
    = (self, Raise (if i <? 0 then IndexError else KeyError)).
Proof.
  intros Hnone.
  unfold addRow, updateRow, row, deleteRow, mbind, meth_bind, result_bind,
    self_, eval, subscript.
  rewrite Hnone. repeat split. by destruct (i <? 0).
Qed.

(** X17: [updateRow] never updates.  Whatever it is called with, the unit
    afterwards is the unit before, and the call ends in one of
    [KeyError], [TypeError], [IndexError] and [NameError]. *)
Theorem updateRow_never_updates (py : version) self (row_vals : gmap string Z)
    (index : option Z) (rowdata_key : string) :
  fst (updateRow py row_vals index rowdata_key self) = self
  ∧ ∃ e, snd (updateRow py row_vals index rowdata_key self) = Raise e
         ∧ e ∈ [KeyError; TypeError; IndexError; NameError].
Proof.
  unfold updateRow, mbind, meth_bind, self_, eval, subscript.
  destruct (row_data self !! rowdata_key) as [coll|].
  - destruct index as [i|]; simpl.
    + destruct (RowDataCollection.numberOfRows coll <=? i); simpl;
        (split; [done|]); eexists; (split; [done|]); set_solver.
    + destruct py; simpl; (split; [done|]); eexists; (split; [done|]); set_solver.
  - simpl. split; [done|]. eexists. split; [done|]. set_solver.
Qed.

End rows_more.

Section ordering_check_more.
Import AIsisUnit.

(** X21: a position beyond the append position cannot be checked: the value
    before it is looked up past the end of the column, and the call ends in
    [IndexError] whatever the candidate is. *)
Theorem checkIncreases_beyond (col : list Z) (value i : Z) :
  Z.of_nat (length col) < i →
  checkIncreases (DataObject.make col) value (Some i) = Raise IndexError.
Proof.
  intros Hi. unfold checkIncreases, _getAdjacentDataObjDetails, DataObject._max,
    DataObject.__getitem__. simpl DataObject.data_collection.
  destruct (Z.ltb_spec i 0) as [?|_]; [lia|].
  destruct (Z.ltb_spec 0 i) as [_|?]; [|lia].
  by rewrite (getitem_beyond col (i - 1)) by lia.
Qed.

End ordering_check_more.

(** ** HeaderUnit, continued *)

Section header_unit_more.
Context {C : Type} `{!RowDataCollection.t C}.
Implicit Types (self : AIsisUnit.t C).

Lemma substring_length (s : string) (n m : nat) :
  (String.length (String.substring n m s) ≤ m)%nat.
Proof.
  revert n m. induction s as [|c s IH]; intros n m.
  - destruct n, m; simpl; lia.
  - destruct n as [|n]; simpl.
    + destruct m as [|m]; simpl; [lia|]. specialize (IH 0%nat m). lia.
    + apply IH.
Qed.

(** X25: [readUnitData] reads the lines 0, 1, 2, 3 and 5 and nothing else:
    the fifth line, every line from the seventh on, and the cursor have no
    influence on the unit it leaves, and six lines are enough. *)
Theorem header_read_ignores self (l0 l1 l2 l3 l4 l4' l5 : string)
    (rest rest' : list string) (file_line file_line' : Z) :
  HeaderUnit.readUnitData (l0 :: l1 :: l2 :: l3 :: l4 :: l5 :: rest) file_line self
  = (fst (HeaderUnit.readUnitData (l0 :: l1 :: l2 :: l3 :: l4' :: l5 :: rest')
            file_line' self),
     Ok (file_line + 7)).
Proof. by rewrite !header_read_lines. Qed.

(** X26: a read replaces [head_data] as a whole.  What an earlier read, of
    a header or of raw lines, had stored is gone after the next read, which
    leaves the unit that it would have left without the earlier one. *)
Theorem header_read_overrides self (earlier raw unit_data : list string)
    (file_line file_line' : Z) :
  (6 ≤ length unit_data)%nat →
  fst (HeaderUnit.readUnitData unit_data file_line
         (fst (HeaderUnit.readUnitData earlier file_line' self)))
  = fst (HeaderUnit.readUnitData unit_data file_line self)
  ∧ fst (HeaderUnit.readUnitData unit_data file_line
           (fst (AIsisUnit.readUnitData raw file_line' self)))
    = fst (HeaderUnit.readUnitData unit_data file_line self)
  ∧ AIsisUnit.head_data (fst (HeaderUnit.readUnitData unit_data file_line
                                (fst (AIsisUnit.readUnitData raw file_line' self))))
      !! "all"%string = None.
Proof.
  intros Hlen.
  destruct unit_data as [|l0 [|l1 [|l2 [|l3 [|l4 [|l5 rest]]]]]];
    simpl in Hlen; try lia.
  rewrite !header_read_lines. simpl fst. split; [|split].
  - destruct earlier as [|e0 [|e1 [|e2 [|e3 [|e4 [|e5 erest]]]]]];
      try reflexivity.
    by rewrite header_read_lines.
  - reflexivity.
  - reflexivity.
Qed.

(** X27: no field read from a header has whitespace at either end, and a
    field cut out of columns is at most ten characters long. *)
Theorem header_fields_stripped self (unit_data : list string) (file_line : Z)
    (k : string) (item : HeadDataItem.t) :
  (6 ≤ length unit_data)%nat →
  AIsisUnit.head_data (fst (HeaderUnit.readUnitData unit_data file_line self)) !! k
  = Some (Item item) →
  strip (HeadDataItem.value item) = HeadDataItem.value item
  ∧ (k ∈ ["name"; "revision"; "roughness"]%string
     ∨ (String.length (HeadDataItem.value item) ≤ 10)%nat).
Proof.
  intros Hlen.
  destruct unit_data as [|l0 [|l1 [|l2 [|l3 [|l4 [|l5 rest]]]]]];
    simpl in Hlen; try lia.
  rewrite header_read_lines. simpl fst.
  change (AIsisUnit.head_data (AIsisUnit.set_head_data ?h self)) with h.
  unfold fields_of. intros Hk. apply elem_of_list_to_map_2 in Hk.
  repeat (apply elem_of_cons in Hk as [Hk|Hk]);
    [..|by apply elem_of_nil in Hk];
    injection Hk as -> ->; cbn [HeadDataItem.value];
    (split; [apply strip_idem|]);
    first [ left; set_solver
          | right; etransitivity; [apply strip_length|];
            first [ rewrite (substr_prefix _ 10)
                  | rewrite (substr_columns _ 10 20) by lia
                  | rewrite (substr_columns _ 20 30) by lia
                  | rewrite (substr_columns _ 30 40) by lia
                  | rewrite (substr_columns _ 40 50) by lia
                  | rewrite (substr_columns _ 50 60) by lia
                  | rewrite (substr_columns _ 60 70) by lia ];
            apply substring_length ].
Qed.

Context `{!HeadDataItem.formatter}.

(** The formatting loop under a [head_data] without raw lines: it goes
    through when every key is there, and ends in [KeyError] otherwise. *)
Lemma format_each_outcome self (keys out : list string) :
  (∀ k l, AIsisUnit.head_data self !! k ≠ Some (Lines l)) →
  (Forall (fun k => is_Some (AIsisUnit.head_data self !! k)) keys
   ∧ ∃ out', HeaderUnit.format_each self keys out = Ok out')
  ∨ (¬ Forall (fun k => is_Some (AIsisUnit.head_data self !! k)) keys
     ∧ HeaderUnit.format_each self keys out = Raise KeyError).
Proof.
  intros Hitems. revert out. induction keys as [|k keys IH]; intros out.
  - left. split; [apply Forall_nil_2|by eexists].
  - cbn [HeaderUnit.format_each]. unfold HeaderUnit.format_field, subscript.
    destruct (AIsisUnit.head_data self !! k) as [[item|l]|] eqn:Hk.
    + simpl. destruct (IH (out ++ [HeadDataItem.format item (Some true)]))
        as [[Hall Hout]|[Hsome Hout]].
      * left. split; [|done]. apply Forall_cons. split; [by rewrite Hk|done].
      * right. split; [|done]. by intros [_ ?]%Forall_cons.
    + by destruct (Hitems k l).
    + right. split; [|done]. intros [Hin _]%Forall_cons.
      rewrite Hk in Hin. by destruct Hin.
Qed.

(** X28: [getData] needs all sixteen fields.  On a unit whose [head_data]
    holds no raw lines it returns when the fifteen keys of [key_order] and
    ['roughness'] are all there, and raises [KeyError] when one of them is
    missing, as on a header unit that has not been read. *)
Theorem header_getData_keys self :
  (∀ k l, AIsisUnit.head_data self !! k ≠ Some (Lines l)) →
  if decide (Forall (fun k => is_Some (AIsisUnit.head_data self !! k))
               (HeaderUnit.key_order ++ ["roughness"%string]))
  then ∃ output, HeaderUnit.getData self = Ok output
  else HeaderUnit.getData self = Raise KeyError.
Proof.
  intros Hitems. unfold HeaderUnit.getData.
  remember (HeaderUnit.key_order ++ ["roughness"%string]) as keys eqn:Hkeys.
  destruct (format_each_outcome self HeaderUnit.key_order [] Hitems)
    as [[Hall [out Hout]]|[Hsome Hout]]; rewrite Hout; simpl.
  - unfold HeaderUnit.format_field, subscript.
    destruct (AIsisUnit.head_data self !! "roughness"%string) as [[item|l]|] eqn:Hr.
    + simpl. destruct (decide _) as [_|Hnot]; [by eexists|].
      destruct Hnot. subst keys. apply Forall_app. split; [done|].
      apply Forall_singleton. by rewrite Hr.
    + by destruct (Hitems "roughness"%string l).
    + simpl. destruct (decide _) as [Hyes|_]; [|done].
      subst keys. apply Forall_app in Hyes as [_ Hyes].
      rewrite Forall_singleton, Hr in Hyes. by destruct Hyes.
  - destruct (decide _) as [Hyes|_]; [|done].
    subst keys. by apply Forall_app in Hyes as [Hyes _].
Qed.

End header_unit_more.

(** ** Closed instances, continued *)

Section instances_more.
Import AIsisUnit.

Lemma comment_write_then_read_witness :
  CommentUnit.no_of_rows noted = Some (Z.of_nat (length (CommentUnit.data noted)))
  ∧ Forall (fun l => strip l = l) (CommentUnit.data noted)
  ∧ CommentUnit.data (comment "") = []
  ∧ ∃ output,
      CommentUnit.getData noted = Ok output
      ∧ CommentUnit.readUnitData output 0 (comment "")
        = (CommentUnit.make (CommentUnit.super (comment "")) (CommentUnit.data noted)
             (CommentUnit.no_of_rows noted),
           Ok (Z.of_nat (length (CommentUnit.data noted)) + 1)).
Proof.
  assert (Hclean : Forall (fun l => strip l = l) (CommentUnit.data noted)).
  { repeat (apply Forall_cons; split; [reflexivity|]). apply Forall_nil_2. }
  split; [reflexivity|]. split; [exact Hclean|]. split; [reflexivity|].
  apply (comment_write_then_read noted (comment "")); [reflexivity|exact Hclean|reflexivity].
Defined.

Lemma comment_read_then_write_witness :
  CommentUnit.data (comment "") = []
  ∧ int (strip "         2") = Ok (Z.of_nat (length rows_read))
  ∧ CommentUnit.getData
      (fst (CommentUnit.readUnitData
              (rows_before ++ "* any tag *"%string :: "         2"%string
                 :: rows_read ++ rows_after)
              (Z.of_nat (length rows_before)) (comment "")))
    = Ok ("COMMENT   "%string :: format_right 10 (str (Z.of_nat (length rows_read)))
            :: (strip <$> rows_read)).
Proof.
  split; [reflexivity|]. split; [reflexivity|].
  apply (comment_read_then_write (comment "") rows_before rows_read rows_after);
    reflexivity.
Defined.

Lemma comment_read_into_used_unit_witness :
  int (strip "         2") = Ok (Z.of_nat (length rows_read))
  ∧ CommentUnit.getData
      (fst (CommentUnit.readUnitData
              (rows_before ++ "COMMENT"%string :: "         2"%string
                 :: rows_read ++ rows_after)
              (Z.of_nat (length rows_before)) noted))
    = Ok ("COMMENT   "%string :: format_right 10 (str (Z.of_nat (length rows_read)))
            :: take (length rows_read) (CommentUnit.data noted ++ (strip <$> rows_read))).
Proof.
  split; [reflexivity|].
  apply (comment_read_into_used_unit noted rows_before rows_read rows_after).
  reflexivity.
Defined.

Lemma comment_read_short_witness :
  int (strip "         5") = Ok (Z.of_nat 5)
  ∧ (length rows_read < 5)%nat
  ∧ CommentUnit.readUnitData
      (rows_before ++ "COMMENT"%string :: "         5"%string :: rows_read)
      (Z.of_nat (length rows_before)) (comment "")
    = (CommentUnit.make (CommentUnit.super (comment ""))
         (CommentUnit.data (comment "") ++ (strip <$> rows_read)) (Some (Z.of_nat 5)),
       Raise IndexError).
Proof.
  split; [reflexivity|]. split; [simpl; lia|].
  apply (comment_read_short (comment "") rows_before rows_read); [reflexivity|simpl; lia].
Defined.

Lemma comment_read_bad_count_witness :
  (getitem ["COMMENT"; "two"]%string (0 + 1) ≫= fun l => int (strip l)) = Raise ValueError
  ∧ CommentUnit.readUnitData ["COMMENT"; "two"]%string 0 noted = (noted, Raise ValueError).
Proof.
  split; [reflexivity|].
  apply (comment_read_bad_count noted ["COMMENT"; "two"]%string 0 ValueError).
  reflexivity.
Defined.

Lemma comment_read_negative_count_witness :
  int (strip "        -3") = Ok (-3)
  ∧ -3 < 0
  ∧ CommentUnit.readUnitData
      (rows_before ++ "COMMENT"%string :: "        -3"%string :: rows_after)
      (Z.of_nat (length rows_before)) noted
    = (CommentUnit.make (CommentUnit.super noted) (CommentUnit.data noted) (Some (-3)),
       Ok (Z.of_nat (length rows_before) + 1)).
Proof.
  split; [reflexivity|]. split; [lia|].
  apply (comment_read_negative_count noted rows_before rows_after); [reflexivity|lia].
Defined.

Lemma comment_getData_prefix_witness :
  CommentUnit.no_of_rows lowered = Some 1
  ∧ ∃ output,
      CommentUnit.getData lowered = Ok output
      ∧ output `prefix_of` ("COMMENT   "%string :: format_right 10 (str 1)
                             :: CommentUnit.data lowered).
Proof.
  split; [reflexivity|]. apply (comment_getData_prefix lowered 1). reflexivity.
Defined.

Lemma rowDataTypeAsList_all_values_witness :
  has_datarows surveyed = Some true
  ∧ row_data surveyed !! "main"%string = Some [1; 3; 5]
  ∧ RowDataCollection.getDataObject (C:=Chainage.t) [1; 3; 5] "chainage"
    = Ok (DataObject.make [1; 3; 5])
  ∧ rowDataType surveyed "chainage" "main" = Ok (VDataObject (DataObject.make [1; 3; 5]))
  ∧ rowDataTypeAsList surveyed "chainage" "main" = Ok (VList [1; 3; 5]).
Proof.
  split; [reflexivity|]. split; [reflexivity|]. split; [reflexivity|].
  apply (rowDataTypeAsList_all_values surveyed [1; 3; 5] "chainage" "main"
           (DataObject.make [1; 3; 5])); reflexivity.
Defined.

Lemma row_accessors_unknown_key_witness :
  has_datarows surveyed = Some true
  ∧ (subscript (row_data surveyed) "main"
       ≫= fun coll => RowDataCollection.getDataObject coll "elevation") = Raise KeyError
  ∧ rowDataType surveyed "elevation" "main" = Raise KeyError
  ∧ rowDataTypeAsList surveyed "elevation" "main" = Raise KeyError.
Proof.
  split; [reflexivity|]. split; [reflexivity|].
  apply (row_accessors_unknown_key surveyed "elevation" "main"); reflexivity.
Defined.


Lemma missing_collection_witness :
  row_data river !! "openings"%string = None
  ∧ addRow Py3 new_row "openings" None river = (river, Raise KeyError)
  ∧ updateRow Py3 new_row None "openings" river = (river, Raise KeyError)
  ∧ row river (-1) "openings" = Raise KeyError
  ∧ deleteRow (-1) "openings" river
    = (river, Raise (if -1 <? 0 then IndexError else KeyError)).
Proof.
  split; [reflexivity|].
  apply (missing_collection Py3 river new_row "openings" None (-1)). reflexivity.
Defined.

Lemma deleteRow_outside_witness :
  row_data river !! "main"%string = Some [1; 3; 5]
  ∧ (3 < 0 ∨ RowDataCollection.numberOfRows (C:=Chainage.t) [1; 3; 5] <= 3)
  ∧ deleteRow 3 "main" river = (river, Raise IndexError).
Proof.
  split; [reflexivity|]. split; [right; vm_compute; discriminate|].
  apply (deleteRow_outside river [1; 3; 5] 3 "main");
    [reflexivity|right; vm_compute; discriminate].
Defined.

Lemma checkIncreases_negative_witness :
  -1 < 0 ∧ checkIncreases (DataObject.make [1; 3]) 2 (Some (-1)) = Raise ValueError.
Proof.
  split; [lia|]. apply (checkIncreases_negative [1; 3] 2 (-1)). lia.
Defined.

Lemma checkIncreases_inside_witness :
  [1; 3; 5] !! 0%nat = Some 1 ∧ [1; 3; 5] !! (0 + 2)%nat = Some 5
  ∧ 1 ≠ 0 ∧ 5 ≠ 0
  ∧ checkIncreases (DataObject.make [1; 3; 5]) 6 (Some (Z.of_nat (0 + 1)))
    = if (1 <? 6) && (6 <? 5) then Ok () else Raise ValueError.
Proof.
  split; [reflexivity|]. split; [reflexivity|]. split; [lia|]. split; [lia|].
  apply (checkIncreases_inside [1; 3; 5] 6 0 1 5); [reflexivity|reflexivity|lia|lia].
Defined.

Lemma checkIncreases_beyond_witness :
  Z.of_nat (length [1; 3]) < 5
  ∧ checkIncreases (DataObject.make [1; 3]) 9 (Some 5) = Raise IndexError.
Proof.
  split; [simpl; lia|]. apply (checkIncreases_beyond [1; 3] 9 5). simpl; lia.
Defined.

Lemma checkIncreases_append_witness :
  ((None : option Z) = None ∨ None = Some (Z.of_nat (length ([1; 3] ++ [5]))))
  ∧ 5 ≠ 0
  ∧ checkIncreases (DataObject.make ([1; 3] ++ [5])) 4 None
    = if 5 <? 4 then Ok () else Raise ValueError.
Proof.
  split; [by left|]. split; [lia|].
  apply (checkIncreases_append [1; 3] 4 5 None); [by left|lia].
Defined.

Lemma header_readUnitData_short_witness :
  (length (take 5 header_block) < 6)%nat
  ∧ HeaderUnit.readUnitData (take 5 header_block) 0 header = (header, Raise IndexError).
Proof.
  split; [simpl; lia|].
  apply (header_readUnitData_short header (take 5 header_block) 0). simpl; lia.
Defined.

Lemma header_read_overrides_witness :
  (6 ≤ length header_block)%nat
  ∧ fst (HeaderUnit.readUnitData header_block 0
           (fst (HeaderUnit.readUnitData (reverse header_block) 7 header)))
    = fst (HeaderUnit.readUnitData header_block 0 header)
  ∧ fst (HeaderUnit.readUnitData header_block 0
           (fst (AIsisUnit.readUnitData rows_read 7 header)))
    = fst (HeaderUnit.readUnitData header_block 0 header)
  ∧ head_data (fst (HeaderUnit.readUnitData header_block 0
                      (fst (AIsisUnit.readUnitData rows_read 7 header))))
      !! "all"%string = None.
Proof.
  split; [simpl; lia|].
  apply (header_read_overrides header (reverse header_block) rows_read header_block 0 7).
  simpl; lia.
Defined.

Lemma header_fields_stripped_witness :
  (6 ≤ length header_block)%nat
  ∧ head_data (fst (HeaderUnit.readUnitData header_block 0 header)) !! "fr_lower"%string
    = Some (Item (HeadDataItem.make "0.750" "{:>10}" 2 1 DATA_TYPES.FLOAT (Some 3)))
  ∧ strip "0.750" = "0.750"%string
  ∧ ("fr_lower"%string ∈ ["name"; "revision"; "roughness"]%string
     ∨ (String.length "0.750" ≤ 10)%nat).
Proof.
  split; [simpl; lia|]. split; [reflexivity|].
  apply (header_fields_stripped header header_block 0 "fr_lower"
           (HeadDataItem.make "0.750" "{:>10}" 2 1 DATA_TYPES.FLOAT (Some 3)));
    [simpl; lia|reflexivity].
Defined.

Lemma header_getData_keys_witness :
  (∀ k l, head_data header !! k ≠ Some (Lines l))
  ∧ if decide (Forall (fun k => is_Some (head_data header !! k))
                 (HeaderUnit.key_order ++ ["roughness"%string]))
    then ∃ output, HeaderUnit.getData (H0:=unpadded) header = Ok output
    else HeaderUnit.getData (H0:=unpadded) header = Raise KeyError.
Proof.
  assert (Hitems : ∀ k l, head_data header !! k ≠ Some (Lines l)).
  { intros k l. change (head_data header) with (∅ : gmap string head_value).
    by rewrite lookup_empty. }
  split; [exact Hitems|].
  apply (header_getData_keys (H0:=unpadded) header Hitems).
Defined.

Lemma header_getData_trailer_witness :
  (6 ≤ length header_block)%nat
  ∧ ∃ (body : list string) (roughness : HeadDataItem.t),
      head_data (fst (HeaderUnit.readUnitData header_block 0 header))
        !! "roughness"%string = Some (Item roughness)
      ∧ HeaderUnit.getData (H0:=unpadded)
          (fst (HeaderUnit.readUnitData header_block 0 header))
        = Ok (body ++ ["RAD FILE"; HeadDataItem.format (formatter:=unpadded) roughness None;
                       "END GENERAL"]%string)
      ∧ body ≠ [].
Proof.
  split; [simpl; lia|].
  apply (header_getData_trailer (H0:=unpadded) header header_block 0). simpl; lia.
Defined.

End instances_more.
